(** * Routecast backend: the route-weather analysis functions of
      [backend/server.py], embedded in Rocq.

    Conventions of the embedding.

    - A Python [str] is a [string]: one [ascii] per character, so the texts
      that come from the weather provider range over the code points 0..255.
      Characters are classified the way CPython classifies these code points
      ([str.isspace], [str.isdigit], [str.lower]).  The fixed messages of the
      source that hold symbols outside this range are kept as the bytes of
      their UTF-8 encoding.
    - A Python [int] is a [Z].  A Python [float] is a [Q]: the arithmetic on
      distances and scores is exact, the rounding of binary floating point is
      not represented.
    - [None] is [None]; a Python exception that a function lets escape is an
      error value; [x or d] is spelled out as a match on the falsy values of
      [x]. *)

From Stdlib Require Import List String Ascii Bool Arith NArith ZArith QArith Lia.
From Stdlib Require Import Qabs Qround DecimalString.
Import ListNotations.

Local Open Scope string_scope.
Local Open Scope Z_scope.

(** ** Python string builtins used by [server.py] *)

Module PyStr.

Definition code (c : ascii) : N := N_of_ascii c.

Definition between (lo hi n : N) : bool := ((lo <=? n) && (n <=? hi))%N.

(** [str.isspace] on one character: TAB..CR, FS..US, SPACE, NEL, NBSP. *)
Definition isspace (c : ascii) : bool :=
  let n := code c in
  between 9 13 n || between 28 32 n || (n =? 133)%N || (n =? 160)%N.

(** The ASCII digits [0]..[9]. *)
Definition is_ascii_digit (c : ascii) : bool := between 48 57 (code c).

(** [str.isdigit] on one character: the ASCII digits and the superscript
    digits U+00B2, U+00B3, U+00B9. *)
Definition isdigit (c : ascii) : bool :=
  let n := code c in
  is_ascii_digit c || (n =? 178)%N || (n =? 179)%N || (n =? 185)%N.

(** [str.lower] on one character. *)
Definition lower_char (c : ascii) : ascii :=
  let n := code c in
  if between 65 90 n || (between 192 222 n && negb (n =? 215)%N)
  then ascii_of_N (n + 32) else c.

Fixpoint lower (s : string) : string :=
  match s with
  | EmptyString => EmptyString
  | String c t => String (lower_char c) (lower t)
  end.

(** [needle in hay] for two strings. *)
Fixpoint contains (needle hay : string) : bool :=
  String.prefix needle hay ||
  match hay with
  | EmptyString => false
  | String _ t => contains needle t
  end.

(** [any(w in s for w in ws)]. *)
Definition contains_any (ws : list string) (s : string) : bool :=
  existsb (fun w => contains w s) ws.

(** [x in xs] for a string and a list of strings. *)
Definition mem (x : string) (xs : list string) : bool :=
  existsb (String.eqb x) xs.

(** [filter(pred, s)] joined back into a string. *)
Fixpoint filter (p : ascii -> bool) (s : string) : string :=
  match s with
  | EmptyString => EmptyString
  | String c t => if p c then String c (filter p t) else filter p t
  end.

(** [s.split()]: the maximal runs of characters that are not white space.
    [cur] is the run being read. *)
Fixpoint split_from (cur s : string) : list string :=
  match s with
  | EmptyString => if String.eqb cur "" then [] else [cur]
  | String c t =>
      if isspace c
      then (if String.eqb cur "" then split_from "" t
            else cur :: split_from "" t)
      else split_from (cur ++ String c "") t
  end.

Definition split (s : string) : list string := split_from "" s.

(** [s[:n]]. *)
Fixpoint take (n : nat) (s : string) : string :=
  match n, s with
  | S k, String c t => String c (take k t)
  | _, _ => EmptyString
  end.

(** [s.split(sep)[0]] for a non-empty separator: the part of [s] before
    the first occurrence of [sep], all of [s] when there is none. *)
Fixpoint before (sep s : string) : string :=
  if String.prefix sep s then EmptyString
  else match s with
       | EmptyString => EmptyString
       | String c t => String c (before sep t)
       end.

Definition digit_value (c : ascii) : Z := Z.of_N (code c) - 48.

(** The value of a string of ASCII digits read in base ten after [acc];
    [None] on any other character. *)
Fixpoint decimal_from (acc : Z) (s : string) : option Z :=
  match s with
  | EmptyString => Some acc
  | String c t =>
      if is_ascii_digit c then decimal_from (10 * acc + digit_value c) t
      else None
  end.

(** CPython refuses to convert a text of more than this many digits
    ([sys.get_int_max_str_digits()], 4300 unless reconfigured). *)
Definition int_max_str_digits : nat := 4300.

(** [int(s)] for a string [s] made of [str.isdigit] characters only;
    [None] stands for [ValueError]: the empty string, a superscript digit,
    or more digits than the interpreter converts. *)
Definition int_of_digits (s : string) : option Z :=
  match s with
  | EmptyString => None
  | _ => if (int_max_str_digits <? String.length s)%nat then None
         else decimal_from 0 s
  end.

(** [str(n)] for an [int]. *)
Definition of_Z (n : Z) : string := NilZero.string_of_int (Z.to_int n).

End PyStr.

(** [int(x)] for a float: truncation towards zero. *)
Definition int_of_float (x : Q) : Z := Z.quot (Qnum x) (Zpos (Qden x)).

(** ** Data model (the pydantic models of [server.py], with the fields the
    analysis functions read) *)

Record Waypoint := mkWaypoint {
  lat : Q;
  lon : Q;
  name : option string;
  distance_from_start : option Q;
  eta_minutes : option Z;
  arrival_time : option string
}.

Record WeatherData := mkWeatherData {
  temperature : option Z;
  wind_speed : option string;
  conditions : option string
}.

Record WeatherAlert := mkWeatherAlert {
  headline : string;
  severity : string;
  event : string
}.

Record WaypointWeather := mkWaypointWeather {
  waypoint : Waypoint;
  weather : option WeatherData;
  alerts : list WeatherAlert
}.

(** [x or d] for an optional [int]: [None] and [0] are falsy. *)
Definition or_int (x : option Z) (d : Z) : Z :=
  match x with
  | None | Some 0 => d
  | Some v => v
  end.

(** [x or d] for an optional [str]: [None] and the empty string are falsy. *)
Definition or_str (x : option string) (d : string) : string :=
  match x with
  | None | Some EmptyString => d
  | Some s => s
  end.

(** [x or d] for an optional [float]: [None] and zero are falsy. *)
Definition or_float (x : option Q) (d : Q) : Q :=
  match x with
  | None => d
  | Some q => if Qeq_bool q 0 then d else q
  end.

(** ** Wind speed, as each component reads it

    Every component repeats the same four lines:
    [wind_str = wp.weather.wind_speed or "0 mph"], then, under [try],
    [int(''.join(filter(str.isdigit, wind_str.split()[0])))], and
    [wind_speed = 0] under a bare [except]. *)

(** The expression under [try]; [None] is a raised [IndexError] or
    [ValueError]. *)
Definition first_token_int (wind_str : string) : option Z :=
  match PyStr.split wind_str with
  | [] => None
  | tok :: _ => PyStr.int_of_digits (PyStr.filter PyStr.isdigit tok)
  end.

(** [calculate_safety_score], lines 699-703. *)
Definition safety_wind_speed (w : WeatherData) : Z :=
  let wind_str := or_str (wind_speed w) "0 mph" in
  match first_token_int wind_str with
  | Some n => n
  | None => 0
  end.

(** [generate_hazard_alerts], lines 784-788. *)
Definition hazard_wind_speed (w : WeatherData) : Z :=
  let wind_str := or_str (wind_speed w) "0 mph" in
  match first_token_int wind_str with
  | Some n => n
  | None => 0
  end.

(** [generate_trucker_warnings], lines 959-963. *)
Definition trucker_wind_speed (w : WeatherData) : Z :=
  let wind_str := or_str (wind_speed w) "0 mph" in
  match first_token_int wind_str with
  | Some n => n
  | None => 0
  end.

(** [derive_road_condition], lines 1055-1060. *)
Definition road_wind_speed (w : WeatherData) : Z :=
  let wind_str := or_str (wind_speed w) "0 mph" in
  match first_token_int wind_str with
  | Some n => n
  | None => 0
  end.

(** ** Road condition classifier *)

Record RoadCondition := mkRoadCondition {
  condition : string;
  rc_severity : Z;
  label : string;
  icon : string;
  color : string;
  description : string;
  recommendation : string
}.

(** [a.severity in ["Extreme", "Severe"]]. *)
Definition is_severe (a : WeatherAlert) : bool :=
  PyStr.mem (severity a) ["Extreme"; "Severe"].

Definition flooded_condition (alert : WeatherAlert) : RoadCondition :=
  mkRoadCondition "flooded" 4 "FLOODING" "🌊" "#dc2626"
    ("Flash flood warning - " ++ PyStr.take 60 (headline alert))
    "🚫 DO NOT DRIVE - Find alternate route immediately".

Definition icy_alert_condition (alert : WeatherAlert) : RoadCondition :=
  mkRoadCondition "icy" 3 "ICY" "🧊" "#ef4444"
    ("Ice storm - " ++ PyStr.take 60 (headline alert))
    "⚠️ DANGEROUS - Avoid travel if possible".

(** The loop [for alert in severe_alerts] of lines 1065-1086; [None] when
    the loop ends without returning. *)
Fixpoint severe_alert_condition (severe_alerts : list WeatherAlert)
  : option RoadCondition :=
  match severe_alerts with
  | [] => None
  | alert :: rest =>
      let event := PyStr.lower (event alert) in
      if PyStr.contains "flood" event || PyStr.contains "flash flood" event
      then Some (flooded_condition alert)
      else if PyStr.contains "ice" event || PyStr.contains "freezing" event
      then Some (icy_alert_condition alert)
      else severe_alert_condition rest
  end.

(** Lines 1088-1171: the rules on the weather itself. *)
Definition weather_condition (temp : Z) (conditions : string) (wind_speed : Z)
  : RoadCondition :=
  if (temp <=? 32) &&
     PyStr.contains_any ["rain"; "drizzle"; "freezing"; "sleet"; "ice"] conditions
  then mkRoadCondition "icy" 3 "ICY ROADS" "🧊" "#ef4444"
         ("Freezing precipitation at " ++ PyStr.of_Z temp ++ "°F")
         "⚠️ Black ice likely - Reduce speed to 25 mph on bridges"
  else if PyStr.contains "snow" conditions || PyStr.contains "blizzard" conditions
  then
    let severity :=
      if PyStr.contains "heavy" conditions || PyStr.contains "blizzard" conditions
      then 3 else 2 in
    mkRoadCondition "snow_covered" severity "SNOW" "❄️" "#93c5fd"
      ("Snow conditions at " ++ PyStr.of_Z temp ++ "°F")
      "🚗 Reduce speed 50%, increase following distance to 8 seconds"
  else if (temp <=? 36) && (32 <? temp)
  then mkRoadCondition "slippery" 2 "SLIPPERY" "⚠️" "#f59e0b"
         ("Near-freezing " ++ PyStr.of_Z temp ++ "°F - bridges/overpasses may be icy")
         "⚡ Watch for black ice on elevated surfaces"
  else if PyStr.contains "fog" conditions || PyStr.contains "mist" conditions
          || PyStr.contains "smoke" conditions
  then mkRoadCondition "low_visibility" 2 "LOW VIS" "🌫️" "#9ca3af"
         "Fog/reduced visibility"
         "💡 Low beams only, reduce speed to match visibility"
  else if 35 <? wind_speed
  then mkRoadCondition "dangerous_wind" 3 "HIGH WIND" "💨" "#8b5cf6"
         ("Dangerous crosswinds at " ++ PyStr.of_Z wind_speed ++ " mph")
         "🚛 HIGH-PROFILE VEHICLES: Consider stopping until winds subside"
  else if PyStr.contains_any ["rain"; "shower"; "drizzle"; "storm"; "thunder"] conditions
  then
    let severity :=
      if PyStr.contains "heavy" conditions || PyStr.contains "thunder" conditions
      then 2 else 1 in
    mkRoadCondition "wet" severity "WET" "💧" "#3b82f6"
      ("Wet roads - " ++ conditions)
      "🌧️ Headlights on, increase following distance to 4 seconds"
  else mkRoadCondition "dry" 0 "DRY" "✓" "#22c55e"
         ("Good conditions - " ++ PyStr.of_Z temp ++ "°F, "
            ++ match conditions with EmptyString => "Clear" | c => c end)
         "✅ Normal driving conditions".

Definition derive_road_condition (weather : option WeatherData)
    (alerts : list WeatherAlert) : RoadCondition :=
  match weather with
  | None =>
      mkRoadCondition "unknown" 0 "UNKNOWN" "❓" "#6b7280"
        "Weather data unavailable" "Drive with normal caution"
  | Some w =>
      let temp := or_int (temperature w) 50 in
      let conditions := PyStr.lower (or_str (conditions w) "") in
      let wind_speed := road_wind_speed w in
      let severe_alerts := List.filter is_severe alerts in
      match severe_alert_condition severe_alerts with
      | Some rc => rc
      | None => weather_condition temp conditions wind_speed
      end
  end.

(** ** Safety scorer *)

Record VehicleProfile := mkVehicleProfile {
  wind_sensitivity : Q;
  ice_sensitivity : Q;
  visibility_sensitivity : Q;
  vehicle_name : string
}.

Definition car_profile : VehicleProfile :=
  mkVehicleProfile 1.0 1.0 1.0 "Car/Sedan".

(** The table [VEHICLE_TYPES], in the order of the source. *)
Definition VEHICLE_TYPES : list (string * VehicleProfile) :=
  [ ("car", car_profile);
    ("suv", mkVehicleProfile 1.1 0.9 1.0 "SUV");
    ("truck", mkVehicleProfile 1.3 0.85 1.0 "Pickup Truck");
    ("semi", mkVehicleProfile 1.8 1.2 1.3 "Semi Truck");
    ("rv", mkVehicleProfile 1.7 1.1 1.2 "RV/Motorhome");
    ("motorcycle", mkVehicleProfile 2.0 2.5 1.5 "Motorcycle");
    ("trailer", mkVehicleProfile 1.6 1.3 1.1 "Vehicle + Trailer") ].

(** [d.get(key, default)] on a table of pairs. *)
Fixpoint dict_get {A : Type} (d : list (string * A)) (key : string) (default : A) : A :=
  match d with
  | [] => default
  | (k, v) :: rest => if String.eqb k key then v else dict_get rest key default
  end.

Record SafetyScore := mkSafetyScore {
  overall_score : Z;
  risk_level : string;
  vehicle_type : string;
  factors : list string;
  recommendations : list string
}.

(** The three variables the scoring loop updates. *)
Record Tally := mkTally {
  base_score : Q;
  seen_factors : list string;
  seen_recommendations : list string
}.

(** [if factor not in factors: factors.append(factor);
    recommendations.append(advice)]. *)
Definition note_factor (factor advice : string) (t : Tally) : Tally :=
  if PyStr.mem factor (seen_factors t) then t
  else mkTally (base_score t) (seen_factors t ++ [factor])
               (seen_recommendations t ++ [advice]).

(** [base_score -= penalty]. *)
Definition charge (penalty : Q) (t : Tally) : Tally :=
  mkTally (base_score t - penalty)%Q (seen_factors t) (seen_recommendations t).

(** Lines 687-696. *)
Definition score_temperature (vehicle : VehicleProfile) (w : WeatherData)
    (t : Tally) : Tally :=
  let temp := or_int (temperature w) 70 in
  if temp <? 32 then
    note_factor "Freezing temperatures - ice risk"
                "Reduce speed on bridges and overpasses"
                (charge (15 * ice_sensitivity vehicle)%Q t)
  else if temp <? 40 then charge (5 * ice_sensitivity vehicle)%Q t
  else t.

(** Lines 698-715. *)
Definition score_wind (vehicle_type : string) (vehicle : VehicleProfile)
    (w : WeatherData) (t : Tally) : Tally :=
  let wind_speed := safety_wind_speed w in
  if 30 <? wind_speed then
    note_factor "High winds"
      (if PyStr.mem vehicle_type ["semi"; "rv"; "trailer"; "motorcycle"]
       then "Consider delaying trip - dangerous wind conditions for your vehicle"
       else "Maintain firm grip on steering wheel")
      (charge (20 * wind_sensitivity vehicle)%Q t)
  else if 20 <? wind_speed then charge (8 * wind_sensitivity vehicle)%Q t
  else t.

(** Lines 717-736. *)
Definition score_conditions (vehicle : VehicleProfile) (w : WeatherData)
    (t : Tally) : Tally :=
  let conditions := PyStr.lower (or_str (conditions w) "") in
  if PyStr.contains "snow" conditions || PyStr.contains "blizzard" conditions then
    note_factor "Snow/winter conditions"
                "Use winter driving mode, increase following distance"
                (charge (25 * visibility_sensitivity vehicle)%Q t)
  else if PyStr.contains "rain" conditions || PyStr.contains "storm" conditions then
    note_factor "Rain/storm conditions"
                "Turn on headlights, reduce speed"
                (charge (15 * visibility_sensitivity vehicle)%Q t)
  else if PyStr.contains "fog" conditions then
    note_factor "Low visibility - fog"
                "Use low beam headlights, avoid sudden stops"
                (charge (20 * visibility_sensitivity vehicle)%Q t)
  else t.

(** Lines 739-743, one alert: the test reads [alert.event], the string
    appended is ["Weather alert: " + alert.event]. *)
Definition score_alert (t : Tally) (alert : WeatherAlert) : Tally :=
  if is_severe alert then
    let t' := charge 20 t in
    if PyStr.mem (event alert) (seen_factors t') then t'
    else mkTally (base_score t')
                 (seen_factors t' ++ ["Weather alert: " ++ event alert])
                 (seen_recommendations t')
  else t.

(** The body of [for wp in waypoints_weather]. *)
Definition score_waypoint (vehicle_type : string) (vehicle : VehicleProfile)
    (t : Tally) (wp : WaypointWeather) : Tally :=
  match weather wp with
  | None => t
  | Some w =>
      let t1 := score_temperature vehicle w t in
      let t2 := score_wind vehicle_type vehicle w t1 in
      let t3 := score_conditions vehicle w t2 in
      fold_left score_alert (alerts wp) t3
  end.

Definition calculate_safety_score (waypoints_weather : list WaypointWeather)
    (vehicle_type : string) : SafetyScore :=
  let vehicle := dict_get VEHICLE_TYPES vehicle_type car_profile in
  let t := fold_left (score_waypoint vehicle_type vehicle) waypoints_weather
                     (mkTally 100 [] []) in
  let final_score := Z.max 0 (Z.min 100 (int_of_float (base_score t))) in
  let risk_level :=
    if 80 <=? final_score then "low"
    else if 60 <=? final_score then "moderate"
    else if 40 <=? final_score then "high"
    else "extreme" in
  let recommendations :=
    if 40 <=? final_score then seen_recommendations t
    else "⚠️ Consider postponing trip if possible" :: seen_recommendations t in
  let factors :=
    match seen_factors t with
    | [] => ["Good driving conditions"]
    | fs => fs
    end in
  let recommendations :=
    match recommendations with
    | [] => ["Safe travels! Normal driving conditions expected"]
    | rs => rs
    end in
  mkSafetyScore final_score risk_level (vehicle_name vehicle)
    (firstn 5 factors) (firstn 4 recommendations).

Definition clear_day : WeatherData :=
  mkWeatherData (Some 70) (Some "0 mph") (Some "Sunny").

Definition at_start : Waypoint :=
  mkWaypoint 0 0 (Some "Start") (Some 0%Q) (Some 0) None.

(** ** Hazard alert generator *)

Record HazardAlert := mkHazardAlert {
  ha_type : string;
  ha_severity : string;
  distance_miles : Q;
  ha_eta_minutes : Z;
  message : string;
  ha_recommendation : string;
  countdown_text : string
}.

(** [wp.waypoint.distance_from_start or 0]. *)
Definition waypoint_distance (wp : WaypointWeather) : Q :=
  or_float (distance_from_start (waypoint wp)) 0.

(** [wp.waypoint.eta_minutes or int(distance / 55 * 60)]. *)
Definition waypoint_eta (wp : WaypointWeather) : Z :=
  match eta_minutes (waypoint wp) with
  | None | Some 0 => int_of_float (waypoint_distance wp / 55 * 60)%Q
  | Some m => m
  end.

(** Lines 783-800. *)
Definition wind_hazard (distance : Q) (eta_mins : Z) (w : WeatherData)
  : list HazardAlert :=
  let wind_speed := hazard_wind_speed w in
  if 25 <? wind_speed then
    let severity :=
      if 40 <? wind_speed then "extreme"
      else if 30 <? wind_speed then "high" else "medium" in
    [mkHazardAlert "wind" severity distance eta_mins
       ("Strong winds of " ++ PyStr.of_Z wind_speed ++ " mph")
       ("Reduce speed to " ++ PyStr.of_Z (Z.max 35 (65 - wind_speed + 25)) ++ " mph")
       (if 0 <? eta_mins
        then "High winds in " ++ PyStr.of_Z eta_mins ++ " minutes"
        else "High winds at start")]
  else [].

(** Lines 802-823. *)
Definition rain_hazard (distance : Q) (eta_mins : Z) (conditions : string)
  : list HazardAlert :=
  if PyStr.contains "heavy rain" conditions || PyStr.contains "storm" conditions then
    [mkHazardAlert "rain" "high" distance eta_mins
       "Heavy rain expected"
       "Reduce speed, increase following distance to 4 seconds"
       ("Heavy rain in " ++ PyStr.of_Z eta_mins ++ " minutes at mile "
          ++ PyStr.of_Z (int_of_float distance))]
  else if PyStr.contains "rain" conditions || PyStr.contains "shower" conditions then
    [mkHazardAlert "rain" "medium" distance eta_mins
       "Rain expected"
       "Turn on headlights and wipers"
       ("Rain in " ++ PyStr.of_Z eta_mins ++ " minutes")]
  else [].

(** Lines 825-835. *)
Definition snow_hazard (distance : Q) (eta_mins : Z) (conditions : string)
  : list HazardAlert :=
  if PyStr.contains "snow" conditions then
    [mkHazardAlert "snow" "high" distance eta_mins
       "Snow conditions expected"
       "Reduce speed by 50%, use winter tires if available"
       ("Snow conditions in " ++ PyStr.of_Z eta_mins ++ " minutes")]
  else [].

(** Lines 837-848. *)
Definition ice_hazard (distance : Q) (eta_mins : Z) (w : WeatherData)
  : list HazardAlert :=
  let temp := or_int (temperature w) 70 in
  if temp <=? 32 then
    [mkHazardAlert "ice" "high" distance eta_mins
       ("Freezing temperature (" ++ PyStr.of_Z temp ++ "°F) - ice risk")
       "Watch for black ice on bridges and overpasses"
       ("Ice risk zone in " ++ PyStr.of_Z eta_mins ++ " minutes")]
  else [].

(** Lines 850-860. *)
Definition fog_hazard (distance : Q) (eta_mins : Z) (conditions : string)
  : list HazardAlert :=
  if PyStr.contains "fog" conditions then
    [mkHazardAlert "visibility" "high" distance eta_mins
       "Fog reducing visibility"
       "Use low beams, reduce speed to match visibility"
       ("Fog in " ++ PyStr.of_Z eta_mins ++ " minutes")]
  else [].

(** Lines 862-873, one upstream alert. *)
Definition noaa_hazard (distance : Q) (eta_mins : Z) (alert : WeatherAlert)
  : HazardAlert :=
  let severity_map :=
    [("Extreme", "extreme"); ("Severe", "high"); ("Moderate", "medium")] in
  mkHazardAlert "alert" (dict_get severity_map (severity alert) "medium")
    distance eta_mins (event alert) (PyStr.take 100 (headline alert))
    (event alert ++ " in " ++ PyStr.of_Z eta_mins ++ " minutes").

(** The alerts one waypoint appends, in the order the loop body appends
    them. *)
Definition waypoint_hazards (wp : WaypointWeather) : list HazardAlert :=
  match weather wp with
  | None => []
  | Some w =>
      let distance := waypoint_distance wp in
      let eta_mins := waypoint_eta wp in
      let conditions := PyStr.lower (or_str (conditions w) "") in
      wind_hazard distance eta_mins w
        ++ rain_hazard distance eta_mins conditions
        ++ snow_hazard distance eta_mins conditions
        ++ ice_hazard distance eta_mins w
        ++ fog_hazard distance eta_mins conditions
        ++ map (noaa_hazard distance eta_mins) (alerts wp)
  end.

(** [list.sort(key=...)] is stable: an element goes in front of the first
    one whose key is not smaller. *)
Fixpoint insert_by_distance (a : HazardAlert) (sorted : list HazardAlert)
  : list HazardAlert :=
  match sorted with
  | [] => [a]
  | b :: rest =>
      if Qle_bool (distance_miles a) (distance_miles b) then a :: b :: rest
      else b :: insert_by_distance a rest
  end.

Definition sort_by_distance (l : list HazardAlert) : list HazardAlert :=
  fold_right insert_by_distance [] l.

(** The parameter [departure_time] of the source is never read. *)
Definition generate_hazard_alerts (waypoints_weather : list WaypointWeather)
  : list HazardAlert :=
  firstn 10 (sort_by_distance (flat_map waypoint_hazards waypoints_weather)).

(** ** Packing suggestions *)

Record PackingSuggestion := mkPackingSuggestion {
  item : string;
  reason : string;
  priority : string
}.

(** What the scan of lines 564-582 collects. *)
Record Forecast := mkForecast {
  temps : list Z;
  has_rain : bool;
  has_snow : bool;
  has_wind : bool;
  has_sun : bool
}.

(** [range(lo, lo + n)]. *)
Definition range (lo : Z) (n : nat) : list Z :=
  map (fun k => lo + Z.of_nat k) (seq 0 n).

Definition scan_waypoint (f : Forecast) (wp : WaypointWeather) : Forecast :=
  match weather wp with
  | None => f
  | Some w =>
      let temps :=
        match temperature w with
        | None | Some 0 => temps f
        | Some t => (temps f ++ [t])%list
        end in
      let conditions := PyStr.lower (or_str (conditions w) "") in
      let wind := or_str (wind_speed w) "" in
      mkForecast temps
        (has_rain f || (PyStr.contains "rain" conditions
                        || PyStr.contains "shower" conditions))
        (has_snow f || (PyStr.contains "snow" conditions
                        || PyStr.contains "flurr" conditions))
        (has_wind f || PyStr.contains "wind" conditions
         || existsb (fun x => PyStr.contains (PyStr.of_Z x) wind) (range 15 35))
        (has_sun f || (PyStr.contains "sun" conditions
                       || PyStr.contains "clear" conditions))
  end.

(** [min(temps)] and [max(temps)] for a list with head [t]. *)
Definition list_min (t : Z) (ts : list Z) : Z := fold_left Z.min ts t.
Definition list_max (t : Z) (ts : list Z) : Z := fold_left Z.max ts t.

Definition when {A : Type} (b : bool) (l : list A) : list A :=
  if b then l else [].

(** Lines 584-612. *)
Definition temperature_suggestions (temps : list Z) : list PackingSuggestion :=
  match temps with
  | [] => []
  | t :: ts =>
      let min_temp := list_min t ts in
      let max_temp := list_max t ts in
      when (min_temp <? 40)
        [mkPackingSuggestion "Warm jacket"
           ("Temperatures as low as " ++ PyStr.of_Z min_temp ++ "°F expected")
           "essential"]
      ++ when (min_temp <? 32)
        [mkPackingSuggestion "Gloves & hat" "Freezing temperatures along route"
           "essential"]
      ++ when (85 <? max_temp)
        [mkPackingSuggestion "Extra water"
           ("High temperatures up to " ++ PyStr.of_Z max_temp ++ "°F")
           "essential"]
      ++ when (20 <? max_temp - min_temp)
        [mkPackingSuggestion "Layers"
           ("Temperature range of " ++ PyStr.of_Z (max_temp - min_temp) ++ "°F")
           "recommended"]
  end.

(** Lines 614-643. *)
Definition condition_suggestions (f : Forecast) : list PackingSuggestion :=
  when (has_rain f)
    [mkPackingSuggestion "Umbrella/rain jacket" "Rain expected along route"
       "essential"]
  ++ when (has_snow f)
    [mkPackingSuggestion "Snow gear & emergency kit" "Snow conditions expected"
       "essential"]
  ++ when (has_wind f)
    [mkPackingSuggestion "Windbreaker" "Windy conditions expected" "recommended"]
  ++ when (has_sun f)
    [mkPackingSuggestion "Sunglasses" "Sunny conditions expected" "recommended";
     mkPackingSuggestion "Sunscreen" "Sun exposure during drive" "optional"].

(** Lines 645-655, under the comment [# Always recommend]. *)
Definition always_recommended : list PackingSuggestion :=
  [mkPackingSuggestion "Phone charger" "Keep devices charged for navigation"
     "essential";
   mkPackingSuggestion "Snacks & water" "Stay hydrated and energized"
     "recommended"].

Definition generate_packing_suggestions (waypoints_weather : list WaypointWeather)
  : list PackingSuggestion :=
  let f := fold_left scan_waypoint waypoints_weather
             (mkForecast [] false false false false) in
  firstn 8 (temperature_suggestions (temps f) ++ condition_suggestions f
            ++ always_recommended).

(** ** Trucker warnings *)

(** [wp.waypoint.name or f"Mile {int(distance)}"]. *)
Definition waypoint_location (wp : WaypointWeather) : string :=
  or_str (name (waypoint wp))
         ("Mile " ++ PyStr.of_Z (int_of_float (waypoint_distance wp))).

(** Lines 958-971. *)
Definition wind_warning (location : string) (w : WeatherData) : list string :=
  let wind_speed := trucker_wind_speed w in
  if 20 <? wind_speed then
    if 35 <? wind_speed then
      ["⚠️ DANGER: " ++ PyStr.of_Z wind_speed ++ " mph winds at " ++ location
         ++ " - Consider stopping until winds subside"]
    else if 25 <? wind_speed then
      ["🚛 High crosswind risk (" ++ PyStr.of_Z wind_speed ++ " mph) at " ++ location
         ++ " - Reduce speed significantly"]
    else
      ["💨 Moderate winds (" ++ PyStr.of_Z wind_speed ++ " mph) at " ++ location
         ++ " - Stay alert"]
  else [].

(** The warnings one waypoint appends, lines 951-985. *)
Definition waypoint_warnings (wp : WaypointWeather) : list string :=
  match weather wp with
  | None => []
  | Some w =>
      let location := waypoint_location wp in
      let conditions := PyStr.lower (or_str (conditions w) "") in
      let temp := or_int (temperature w) 70 in
      List.concat
        [ wind_warning location w;
          when (PyStr.contains "snow" conditions)
            ["❄️ Snow at " ++ location ++ " - Chain requirements may be in effect"];
          when (temp <=? 32)
            ["🧊 Freezing temps at " ++ location ++ " - Bridge decks may be icy"];
          when (PyStr.contains "fog" conditions)
            ["🌫️ Reduced visibility at " ++ location
               ++ " - Maintain safe following distance"] ]
  end.

(** Lines 987-994: keep the first warning of every key
    [w.split(" - ")[0]]; [seen] is the set of keys met so far. *)
Fixpoint unique_by_key (seen : list string) (warnings : list string)
  : list string :=
  match warnings with
  | [] => []
  | w :: rest =>
      let key := PyStr.before " - " w in
      if PyStr.mem key seen then unique_by_key seen rest
      else w :: unique_by_key (key :: seen) rest
  end.

(** The parameter [vehicle_height_ft] of the source is never read. *)
Definition generate_trucker_warnings (waypoints_weather : list WaypointWeather)
  : list string :=
  firstn 8 (unique_by_key [] (flat_map waypoint_warnings waypoints_weather)).

(** ** Route-wide road conditions and the reroute decision *)

(** What the loop of [analyze_route_conditions] updates. *)
Record Analysis := mkAnalysis {
  all_conditions : list RoadCondition;
  worst_severity : Z;
  worst_condition : string;
  reroute_needed : bool;
  reroute_reason : option string
}.

(** The reason built at line 1272 for waypoint [wp] with condition
    [road_cond]. *)
Definition reroute_text (wp : WaypointWeather) (road_cond : RoadCondition)
  : string :=
  let location :=
    or_str (name (waypoint wp))
           ("Mile " ++ PyStr.of_Z
              (int_of_float (or_float (distance_from_start (waypoint wp)) 0))) in
  label road_cond ++ " conditions at " ++ location ++ " - "
    ++ description road_cond.

(** The body of the loop, lines 1260-1272. *)
Definition analyze_waypoint (a : Analysis) (wp : WaypointWeather) : Analysis :=
  let road_cond := derive_road_condition (weather wp) (alerts wp) in
  let worse := worst_severity a <? rc_severity road_cond in
  mkAnalysis
    (all_conditions a ++ [road_cond])
    (if worse then rc_severity road_cond else worst_severity a)
    (if worse then condition road_cond else worst_condition a)
    (if 3 <=? rc_severity road_cond then true else reroute_needed a)
    (if 3 <=? rc_severity road_cond then
       match reroute_reason a with
       | None | Some EmptyString => Some (reroute_text wp road_cond)
       | Some r => Some r
       end
     else reroute_reason a).

(** [d[key] = d.get(key, 0) + 1] on a dict, which keeps its keys in the
    order of their first insertion. *)
Fixpoint dict_incr (d : list (string * Z)) (key : string) : list (string * Z) :=
  match d with
  | [] => [(key, 1)]
  | (k, n) :: rest =>
      if String.eqb k key then (k, n + 1) :: rest
      else (k, n) :: dict_incr rest key
  end.

(** [sep.join(parts)]. *)
Fixpoint join (sep : string) (parts : list string) : string :=
  match parts with
  | [] => ""
  | [p] => p
  | p :: rest => p ++ sep ++ join sep rest
  end.

(** Lines 1274-1284. *)
Definition conditions_summary (all_conditions : list RoadCondition) : string :=
  let condition_counts :=
    fold_left
      (fun d c => if String.eqb (condition c) "dry" then d
                  else dict_incr d (label c))
      all_conditions [] in
  match condition_counts with
  | [] => "✅ Good road conditions expected throughout your route"
  | _ =>
      let summary_parts :=
        map (fun '(label, count) =>
               PyStr.of_Z count ++ " segments with " ++ label)
            condition_counts in
      "⚠️ Road hazards detected: " ++ join ", " summary_parts
  end.

(** Returns [(summary, worst_condition, reroute_needed, reroute_reason)]. *)
Definition analyze_route_conditions (waypoints_weather : list WaypointWeather)
  : string * string * bool * option string :=
  let a := fold_left analyze_waypoint waypoints_weather
             (mkAnalysis [] 0 "dry" false None) in
  (conditions_summary (all_conditions a), worst_condition a,
   reroute_needed a, reroute_reason a).


(** ** Geospatial helpers and the request pipeline

    The collaborators the pipeline calls are not part of the repository:
    the [math] functions inside [haversine_distance], [polyline.decode],
    [datetime], and the HTTP services behind [geocode_location],
    [get_mapbox_route], [get_noaa_weather], [get_noaa_alerts] and
    [reverse_geocode].  They are the variables of this section; a service
    is a function of its request, [None] when the call fails. *)

(** The dict [{'lon': ..., 'lat': ...}] of [geocode_location]. *)
Record Coords := mkCoords {
  c_lon : Q;
  c_lat : Q
}.

(** One entry of [data['routes']] in the reply of the directions service;
    a key the reply does not hold is [None]. *)
Record RouteEntry := mkRouteEntry {
  re_geometry : option string;
  re_duration : option Q;
  re_distance : option Q
}.

Record DirectionsReply := mkDirectionsReply {
  reply_code : option string;
  reply_routes : list RouteEntry
}.

(** The dict [get_mapbox_route] returns. *)
Record RouteData := mkRouteData {
  geometry : string;
  duration : Q;
  distance : Q
}.

Record StopPoint := mkStopPoint {
  location : string;
  stop_type : string
}.

Record RouteRequest := mkRouteRequest {
  origin : string;
  destination : string;
  departure_time : option string;
  stops : option (list StopPoint);
  req_vehicle_type : option string;
  trucker_mode : option bool
}.

(** The fields of [RouteWeatherResponse] whose producers are embedded
    here. *)
Record RouteWeatherResponse := mkRouteWeatherResponse {
  resp_origin : string;
  resp_destination : string;
  resp_stops : list StopPoint;
  resp_departure_time : string;
  total_duration_minutes : Z;
  total_distance_miles : Q;
  route_geometry : string;
  waypoints : list WaypointWeather;
  has_severe_weather : bool;
  packing_suggestions : list PackingSuggestion;
  safety_score : SafetyScore;
  hazard_alerts : list HazardAlert;
  trucker_warnings : list string;
  resp_vehicle_type : string;
  road_condition_summary : string;
  worst_road_condition : string;
  reroute_recommended : bool;
  resp_reroute_reason : option string
}.

(** The outcome of a request handler: a response, or a raised
    [HTTPException(status_code, detail)]. *)
Inductive outcome (A : Type) : Type :=
| Return (a : A)
| HTTPException (status_code : Z) (detail : string).
Arguments Return {A} a.
Arguments HTTPException {A} status_code detail.

Definition bind {A B : Type} (m : outcome A) (k : A -> outcome B) : outcome B :=
  match m with
  | Return a => k a
  | HTTPException status_code detail => HTTPException status_code detail
  end.

Notation "x <- m ;; k" := (bind m (fun x => k))
  (at level 61, m at next level, right associativity).

(** [if not x: raise HTTPException(status_code, detail)]. *)
Definition require {A : Type} (x : option A) (status_code : Z) (detail : string)
  : outcome A :=
  match x with
  | Some a => Return a
  | None => HTTPException status_code detail
  end.

(** [round(x)] to the nearest integer, ties to the even one. *)
Definition round_half_even (x : Q) : Z :=
  let f := Qfloor x in
  match (x - inject_Z f ?= 1 # 2)%Q with
  | Lt => f
  | Gt => f + 1
  | Eq => if Z.even f then f else f + 1
  end.

(** [round(x, 1)]. *)
Definition round1 (x : Q) : Q := Qmake (round_half_even (x * 10)) 10.

(** [calculate_eta(distance_miles)] at the default [avg_speed_mph=55]. *)
Definition calculate_eta (distance_miles : Q) : Z :=
  int_of_float ((distance_miles / 55) * 60)%Q.

Section Providers.

(** [haversine_distance(lat1, lon1, lat2, lon2)], in miles; [None] where
    it raises [ValueError]: [math.sqrt(1-a)] for an [a] that rounding has
    carried above 1, as happens between points that are nearly
    antipodal. *)
Variable haversine_distance : Q -> Q -> Q -> Q -> option Q.

(** [polyline.decode]; [None] when it raises. *)
Variable polyline_decode : string -> option (list (Q * Q)).

Variable datetime : Type.
(** [t + timedelta(minutes=m)], [None] where it raises [OverflowError]:
    a date past [datetime.max], or more minutes than a [timedelta] holds;
    and [t.isoformat()]. *)
Variable add_minutes : datetime -> Z -> option datetime.
Variable isoformat : datetime -> string.
(** Lines 1360-1368: the requested departure time, parsed, or the clock. *)
Variable parse_departure : option string -> datetime.

Variable geocode_location : string -> option Coords.
(** The directions service, asked for the route through these
    coordinates. *)
Variable directions_api : list Coords -> option DirectionsReply.
Variable get_noaa_weather : Q -> Q -> option WeatherData.
Variable get_noaa_alerts : Q -> Q -> list WeatherAlert.
Variable reverse_geocode : Q -> Q -> option string.

(** *** [extract_waypoints_from_route]

    The whole body is under [try: ... except Exception: return []]
    (lines 305-365).  The functions below return [None] where the body
    raises: in [polyline.decode], in [haversine_distance], or in the
    addition of the travel time to the departure time. *)

(** The three variables of the sampling loop. *)
Record Sampling := mkSampling {
  emitted : list Waypoint;
  total_distance : Q;
  last_waypoint_distance : Q
}.

(** Lines 333-342: the waypoint at [total] miles. *)
Definition mile_waypoint (dep_time : datetime) (lat2 lon2 total : Q)
  : option Waypoint :=
  let eta_mins := calculate_eta total in
  match add_minutes dep_time eta_mins with
  | None => None
  | Some arrival =>
      Some (mkWaypoint lat2 lon2
              (Some ("Mile " ++ PyStr.of_Z (int_of_float total)))
              (Some (round1 total)) (Some eta_mins)
              (Some (isoformat arrival)))
  end.

(** The loop of lines 326-344 from [coords[i-1] = prev] on. *)
Fixpoint sample_from (interval_miles : Q) (dep_time : datetime)
    (prev : Q * Q) (rest : list (Q * Q)) (s : Sampling) : option Sampling :=
  match rest with
  | [] => Some s
  | cur :: rest' =>
      let '(lat1, lon1) := prev in
      let '(lat2, lon2) := cur in
      match haversine_distance lat1 lon1 lat2 lon2 with
      | None => None
      | Some segment_distance =>
          let total := (total_distance s + segment_distance)%Q in
          if Qle_bool interval_miles (total - last_waypoint_distance s)
          then
            match mile_waypoint dep_time lat2 lon2 total with
            | None => None
            | Some wp =>
                sample_from interval_miles dep_time cur rest'
                  (mkSampling (emitted s ++ [wp]) total total)
            end
          else
            sample_from interval_miles dep_time cur rest'
              (mkSampling (emitted s) total (last_waypoint_distance s))
      end
  end.

Definition start_waypoint (dep_time : datetime) (first : Q * Q) : Waypoint :=
  mkWaypoint (fst first) (snd first) (Some "Start") (Some 0%Q) (Some 0)
    (Some (isoformat dep_time)).

(** Lines 351-360. *)
Definition destination_waypoint (dep_time : datetime) (last : Q * Q)
    (total : Q) : option Waypoint :=
  let eta_mins := calculate_eta total in
  match add_minutes dep_time eta_mins with
  | None => None
  | Some arrival =>
      Some (mkWaypoint (fst last) (snd last) (Some "Destination")
              (Some (round1 total)) (Some eta_mins)
              (Some (isoformat arrival)))
  end.

(** The test of lines 348-350 on the waypoints emitted so far;
    [waypoints[-1]] is read from a list that starts with [start].  The
    distance is computed only when the first operand of [or] is false. *)
Definition needs_destination (start : Waypoint) (emitted : list Waypoint)
    (last : Q * Q) : option bool :=
  let latest := List.last emitted start in
  if (List.length emitted =? 1)%nat then Some true
  else
    match haversine_distance (lat latest) (lon latest) (fst last) (snd last) with
    | None => None
    | Some d => Some (negb (Qle_bool d 10))
    end.

(** The body of the [try] once [coords] is known and not empty:
    [first] is [coords[0]], [rest] is [coords[1:]].  [dep_time] is the
    departure time the request handler passes; the fallback to
    [datetime.now()] for a missing one is not represented. *)
Definition waypoints_along (interval_miles : Q) (dep_time : datetime)
    (first : Q * Q) (rest : list (Q * Q)) : option (list Waypoint) :=
  let start := start_waypoint dep_time first in
  match sample_from interval_miles dep_time first rest
          (mkSampling [start] 0 0) with
  | None => None
  | Some s =>
      let last := List.last rest first in
      match needs_destination start (emitted s) last with
      | None => None
      | Some false => Some (emitted s)
      | Some true =>
          match destination_waypoint dep_time last (total_distance s) with
          | None => None
          | Some destination => Some (emitted s ++ [destination])%list
          end
      end
  end.

Definition extract_waypoints_from_route (encoded_polyline : string)
    (interval_miles : Q) (dep_time : datetime) : list Waypoint :=
  match polyline_decode encoded_polyline with
  | None => []
  | Some [] => []
  | Some (first :: rest) =>
      match waypoints_along interval_miles dep_time first rest with
      | None => []
      | Some waypoints => waypoints
      end
  end.

(** *** [get_mapbox_route] *)

Definition get_mapbox_route (origin_coords dest_coords : Coords)
    (waypoints : option (list Coords)) : option RouteData :=
  let coords_list :=
    (origin_coords ::
       match waypoints with Some wps => wps | None => [] end
       ++ [dest_coords])%list in
  match directions_api coords_list with
  | None => None
  | Some data =>
      if match reply_code data with
         | Some code => String.eqb code "NoRoute"
         | None => false
         end
      then None
      else match reply_routes data with
           | [] => None
           | route :: _ =>
               match re_geometry route with
               | None => None
               | Some g =>
                   Some (mkRouteData g
                           (match re_duration route with Some x => x | None => 0 end / 60)
                           (match re_distance route with Some x => x | None => 0 end / 1609.34))
               end
           end
  end.

(** *** [get_route_weather] *)

(** Lines 1380-1385: the coordinates of the stops that geocode. *)
Definition geocode_stops (stops : option (list StopPoint)) : list Coords :=
  match stops with
  | None => []
  | Some l =>
      fold_left
        (fun stop_coords stop =>
           match geocode_location (location stop) with
           | Some coords => (stop_coords ++ [coords])%list
           | None => stop_coords
           end)
        l []
  end.

(** [stop_coords if stop_coords else None]. *)
Definition via_argument (stop_coords : list Coords) : option (list Coords) :=
  match stop_coords with [] => None | _ => Some stop_coords end.

(** [fetch_waypoint_weather], lines 1408-1447, without the write to
    [has_severe]. *)
Definition fetch_waypoint_weather (wp : Waypoint) (index total : nat)
    (origin_name dest_name : string) : WaypointWeather :=
  let weather := get_noaa_weather (lat wp) (lon wp) in
  let alerts := get_noaa_alerts (lat wp) (lon wp) in
  let location_name := reverse_geocode (lat wp) (lon wp) in
  let display_name :=
    if (index =? 0)%nat then "Start - " ++ origin_name
    else if (index =? total - 1)%nat then "End - " ++ dest_name
    else
      let point_label := "Point " ++ PyStr.of_Z (Z.of_nat index) in
      match location_name with
      | None | Some EmptyString => point_label
      | Some l => point_label ++ " - " ++ l
      end in
  mkWaypointWeather
    (mkWaypoint (lat wp) (lon wp) (Some display_name)
       (distance_from_start wp) (eta_minutes wp) (arrival_time wp))
    weather alerts.

(** [[f(wp, i) for i, wp in enumerate(waypoints)]] from index [i] on. *)
Fixpoint enumerate_from {A B : Type} (f : A -> nat -> B) (i : nat) (l : list A)
  : list B :=
  match l with
  | [] => []
  | x :: rest => f x i :: enumerate_from f (S i) rest
  end.

Definition no_route_detail (request : RouteRequest) : string :=
  "No drivable route found between " ++ origin request ++ " and "
    ++ destination request
    ++ ". These locations may not be connected by roads (e.g., Nome, Alaska is only accessible by air). Try different locations.".

(** Lines 1370-1402: every step that can reject the request. *)
Definition plan_route (request : RouteRequest) (dep_time : datetime)
  : outcome (RouteData * list Waypoint) :=
  origin_coords <- require (geocode_location (origin request)) 400
                     ("Could not geocode origin: " ++ origin request) ;;
  dest_coords <- require (geocode_location (destination request)) 400
                   ("Could not geocode destination: " ++ destination request) ;;
  let stop_coords := geocode_stops (stops request) in
  route_data <- require
                  (get_mapbox_route origin_coords dest_coords
                     (via_argument stop_coords))
                  400 (no_route_detail request) ;;
  let waypoints := extract_waypoints_from_route (geometry route_data) 50 dep_time in
  match waypoints with
  | [] => HTTPException 500 "Could not extract waypoints from route"
  | _ => Return (route_data, waypoints)
  end.

Definition get_route_weather (request : RouteRequest)
  : outcome RouteWeatherResponse :=
  let dep_time := parse_departure (departure_time request) in
  planned <- plan_route request dep_time ;;
  let '(route_data, waypoints) := planned in
  let route_geometry := geometry route_data in
  let total_duration := int_of_float (duration route_data) in
  let total_waypoints := List.length waypoints in
  let waypoints_weather :=
    enumerate_from
      (fun wp i => fetch_waypoint_weather wp i total_waypoints
                     (origin request) (destination request))
      0 waypoints in
  let has_severe :=
    existsb (fun wp => existsb is_severe (alerts wp)) waypoints_weather in
  let vehicle_type := or_str (req_vehicle_type request) "car" in
  let trucker_warnings :=
    match trucker_mode request with
    | Some true => generate_trucker_warnings waypoints_weather
    | _ => []
    end in
  let '(summary, worst, reroute, reason) :=
    analyze_route_conditions waypoints_weather in
  let total_distance := (distance route_data / 1609.34)%Q in
  Return
    (mkRouteWeatherResponse
       (origin request) (destination request)
       (match stops request with Some l => l | None => [] end)
       (isoformat dep_time)
       total_duration (round1 total_distance) route_geometry
       waypoints_weather has_severe
       (generate_packing_suggestions waypoints_weather)
       (calculate_safety_score waypoints_weather vehicle_type)
       (generate_hazard_alerts waypoints_weather)
       trucker_warnings vehicle_type summary worst reroute reason).

(** The stops of a request that geocode, in the order of the request:
    what the specification says the route is built through. *)
Definition resolved_stops (request : RouteRequest) : list Coords :=
  flat_map
    (fun stop => match geocode_location (location stop) with
                 | Some coords => [coords]
                 | None => []
                 end)
    (match stops request with Some l => l | None => [] end).

End Providers.

(** ** Stand-ins for the collaborators, to run the pipeline on examples *)

Module Sample.

Local Open Scope Q_scope.

(** A taxicab distance at 69 miles per degree, which fails between
    antipodal points. *)
Definition antipodal (lat1 lon1 lat2 lon2 : Q) : bool :=
  Qeq_bool (lat1 + lat2) 0 && Qeq_bool (Qabs (lon2 - lon1)) 180.

Definition distance (lat1 lon1 lat2 lon2 : Q) : option Q :=
  if antipodal lat1 lon1 lat2 lon2 then None
  else Some (69 * (Qabs (lat2 - lat1) + Qabs (lon2 - lon1)))%Q.

Definition denver : Coords := mkCoords (-104.9903) 39.7392.
Definition boulder : Coords := mkCoords (-105.2705) 40.015.
Definition nome : Coords := mkCoords (-165.4064) 64.5011.

Definition geocode (place : string) : option Coords :=
  if String.eqb place "Denver, CO" then Some denver
  else if String.eqb place "Boulder, CO" then Some boulder
  else if String.eqb place "Nome, AK" then Some nome
  else None.

(** Four encoded polylines with the coordinates they stand for: a
    drive from Denver to Boulder, a long one of three points, a single
    point, and a line between antipodal points. *)
Definition denver_boulder : string := "_qpqFj|x_SoqZrm[ghYrgY".
Definition long_drive : string := "_p~iF~ps|U_ulLnnqC_mqNvxq`@".
Definition single_point : string := "_p~iF~ps|U".
Definition antipodes : string := "_gayB~hbE~ncsF_gsia@".

Definition decode (encoded : string) : option (list (Q * Q)) :=
  if String.eqb encoded denver_boulder
  then Some [(39.7392, -104.9903); (39.8804, -105.136); (40.015, -105.2705)]
  else if String.eqb encoded long_drive
  then Some [(38.5, -120.2); (40.7, -120.95); (43.252, -126.453)]
  else if String.eqb encoded single_point then Some [(38.5, -120.2)]
  else if String.eqb encoded antipodes then Some [(20, -1); (-20, 179)]
  else None.

(** Denver to Boulder is 45 km of road, through any stops on the way;
    nothing drives to Nome. *)
Definition directions (coords : list Coords) : option DirectionsReply :=
  match coords with
  | [] => None
  | a :: rest =>
      if Qeq_bool (c_lat a) (c_lat denver)
         && Qeq_bool (c_lat (List.last rest a)) (c_lat boulder)
      then Some (mkDirectionsReply (Some "Ok")
                   [mkRouteEntry (Some denver_boulder) (Some 2400) (Some 45000)])
      else Some (mkDirectionsReply (Some "NoRoute") [])
  end.

(** Time is counted in minutes, up to [last_minute]; a request that
    names a departure time leaves in the last hour. *)
Definition last_minute : Z := 4194304000%Z.
Definition clock (text : option string) : Z :=
  match text with
  | None => 0%Z
  | Some _ => (last_minute - 30)%Z
  end.
Definition later (t m : Z) : option Z :=
  if (t + m <=? last_minute)%Z then Some (t + m)%Z else None.

Definition forecast (la lo : Q) : option WeatherData :=
  Some (mkWeatherData (Some 70%Z) (Some "0 mph") (Some "Sunny")).
Definition no_alerts (la lo : Q) : list WeatherAlert := [].
Definition place_name (la lo : Q) : option string := None.

Definition route_weather : RouteRequest -> outcome RouteWeatherResponse :=
  get_route_weather distance decode Z later PyStr.of_Z clock geocode
    directions forecast no_alerts place_name.

End Sample.

(** ** Readings of the specification

    The definitions of this part follow the words of the specification, not
    the source; the properties below compare them with the functions
    above. *)

Module Reading.

(** "Extract the first run of digits in the wind-speed text;
    non-numeric/missing -> 0". *)
Fixpoint digit_run (s : string) : string :=
  match s with
  | EmptyString => EmptyString
  | String c t => if PyStr.is_ascii_digit c then String c (digit_run t)
                  else EmptyString
  end.

Fixpoint first_digit_run (s : string) : string :=
  match s with
  | EmptyString => EmptyString
  | String c t => if PyStr.is_ascii_digit c then digit_run s
                  else first_digit_run t
  end.

Definition wind_speed_value (text : option string) : Z :=
  match text with
  | None => 0
  | Some s =>
      match PyStr.decimal_from 0 (first_digit_run s) with
      | Some n => n
      | None => 0
      end
  end.

(** The first word of a text: its first maximal run of characters that
    are not white space. *)
Fixpoint word (s : string) : string :=
  match s with
  | EmptyString => EmptyString
  | String c t => if PyStr.isspace c then EmptyString
                  else String c (word t)
  end.

Fixpoint first_word (s : string) : string :=
  match s with
  | EmptyString => EmptyString
  | String c t => if PyStr.isspace c then first_word t else word s
  end.

(** The number written by the digits of the first word, [0] when the
    text is missing or empty, when the word holds no digit, and when
    [int] refuses its digits. *)
Definition first_word_value (text : option string) : Z :=
  match text with
  | None | Some EmptyString => 0
  | Some s =>
      match PyStr.int_of_digits (PyStr.filter PyStr.isdigit (first_word s)) with
      | Some n => n
      | None => 0
      end
  end.

(** "conditions text contains any of ...", whatever the case of the
    letters. *)
Definition mentions (words : list string) (text : string) : bool :=
  PyStr.contains_any words (PyStr.lower text).

Definition severe_about (words : list string) (a : WeatherAlert) : bool :=
  is_severe a && mentions words (event a).

(** Steps 2 and 3 as the specification orders them: a flood alert
    anywhere in the list comes before any ice alert. *)
Definition alert_rule (alerts : list WeatherAlert) : option (string * Z) :=
  if existsb (severe_about ["flood"]) alerts then Some ("flooded", 4)
  else if existsb (severe_about ["ice"; "freezing"]) alerts then Some ("icy", 3)
  else None.

(** Steps 2 and 3 taken alert by alert: the first severe alert about
    flood, ice or freezing decides. *)
Definition first_alert_rule (alerts : list WeatherAlert) : option (string * Z) :=
  match find (severe_about ["flood"; "ice"; "freezing"]) alerts with
  | Some a => Some (if mentions ["flood"] (event a) then ("flooded", 4)
                    else ("icy", 3))
  | None => None
  end.

(** Steps 4 to 10; a missing temperature matches no temperature rule. *)
Definition weather_rules (temp : option Z) (conditions : string) (wind : Z)
  : string * Z :=
  let at_most n := match temp with Some t => t <=? n | None => false end in
  let above n := match temp with Some t => n <? t | None => false end in
  if at_most 32 &&
     mentions ["rain"; "drizzle"; "freezing"; "sleet"; "ice"] conditions
  then ("icy", 3)
  else if mentions ["snow"; "blizzard"] conditions
  then ("snow_covered", if mentions ["heavy"; "blizzard"] conditions then 3 else 2)
  else if above 32 && at_most 36 then ("slippery", 2)
  else if mentions ["fog"; "mist"; "smoke"] conditions then ("low_visibility", 2)
  else if 35 <? wind then ("dangerous_wind", 3)
  else if mentions ["rain"; "shower"; "drizzle"; "storm"; "thunder"] conditions
  then ("wet", if mentions ["heavy"; "thunder"] conditions then 2 else 1)
  else ("dry", 0).

(** The ten steps, with steps 2 and 3 given by [rule]. *)
Definition classify (rule : list WeatherAlert -> option (string * Z))
    (weather : option WeatherData) (alerts : list WeatherAlert) : string * Z :=
  match weather with
  | None => ("unknown", 0)
  | Some w =>
      match rule alerts with
      | Some verdict => verdict
      | None => weather_rules (temperature w)
                  (match conditions w with Some c => c | None => "" end)
                  (road_wind_speed w)
      end
  end.

End Reading.

(** The pair the classifier is specified by. *)
Definition verdict (rc : RoadCondition) : string * Z :=
  (condition rc, rc_severity rc).

(** The scenario of a quiet day: 70 degrees, no wind, no alert, and a
    conditions text that names no precipitation and no fog. *)
Definition quiet (wp : WaypointWeather) : bool :=
  match weather wp with
  | None => false
  | Some w =>
      match temperature w with Some 70 => true | _ => false end
      && (safety_wind_speed w =? 0)
      && match alerts wp with [] => true | _ => false end
      && negb (Reading.mentions
                 ["snow"; "blizzard"; "rain"; "storm"; "fog"; "shower"]
                 (or_str (conditions w) ""))
  end.

(** [w] with a temperature of [0] or no temperature replaced by [d]. *)
Definition fill_temperature (d : Z) (w : WeatherData) : WeatherData :=
  mkWeatherData (Some (or_int (temperature w) d)) (wind_speed w) (conditions w).

Definition fill_waypoint (d : Z) (wp : WaypointWeather) : WaypointWeather :=
  mkWaypointWeather (waypoint wp) (option_map (fill_temperature d) (weather wp))
    (alerts wp).

(** [3 <= severity] of the road condition derived at [wp]. *)
Definition severe_here (wp : WaypointWeather) : bool :=
  3 <=? rc_severity (derive_road_condition (weather wp) (alerts wp)).

(** The text recorded for the first waypoint that calls for a reroute. *)
Definition first_reroute_text (wps : list WaypointWeather) : option string :=
  option_map
    (fun wp => reroute_text wp (derive_road_condition (weather wp) (alerts wp)))
    (find severe_here wps).

(** A waypoint that is not the one named "Destination". *)
Definition unnamed_destination (w : Waypoint) : Prop :=
  name w <> Some "Destination".

(** A waypoint whose arrival time is the departure time plus its
    estimated minutes, an addition that did not raise. *)
Definition arrives {datetime : Type} (add_minutes : datetime -> Z -> option datetime)
    (isoformat : datetime -> string) (dep_time : datetime) (w : Waypoint) : Prop :=
  exists m t,
    eta_minutes w = Some m
    /\ add_minutes dep_time m = Some t
    /\ arrival_time w = Some (isoformat t).

(** * Properties *)

(** ** The functions on examples *)

Example str_of_int :
  map PyStr.of_Z [0; 7; 1525; -5] = ["0"; "7"; "1525"; "-5"].
Proof. reflexivity. Qed.

Example int_truncates :
  map int_of_float [52.4%Q; (-3.7)%Q; 0.99%Q; (120 / 55 * 60)%Q] = [52; -3; 0; 130].
Proof. reflexivity. Qed.

Example round_one_decimal :
  map round1 [41.35%Q; 0.25%Q; 0.75%Q; 27.96%Q; (1 # 3)%Q]
  = [41.4%Q; 0.2%Q; 0.8%Q; 28.0%Q; 0.3%Q].
Proof. reflexivity. Qed.

Example split_whitespace :
  PyStr.split "  15 to	25 mph " = ["15"; "to"; "25"; "mph"].
Proof. reflexivity. Qed.

Example lower_and_in :
  PyStr.lower "Heavy Snow" = "heavy snow"
  /\ PyStr.contains "snow" "heavy snow" = true
  /\ PyStr.contains "rain" "heavy snow" = false
  /\ PyStr.before " - " "a - b - c" = "a".
Proof. repeat split. Qed.

Example parse_15_to_25 :
  road_wind_speed (mkWeatherData None (Some "15 to 25 mph") None) = 15.
Proof. reflexivity. Qed.

Example parse_15_dash_25 :
  road_wind_speed (mkWeatherData None (Some "15-25 mph") None) = 1525.
Proof. reflexivity. Qed.

Example parse_word_first :
  road_wind_speed (mkWeatherData None (Some "Wind 15 mph") None) = 0.
Proof. reflexivity. Qed.

Example classify_freezing_rain :
  let rc := derive_road_condition
              (Some (mkWeatherData (Some 28) (Some "5 mph") (Some "Freezing Rain"))) [] in
  (condition rc, rc_severity rc, description rc)
  = ("icy", 3, "Freezing precipitation at 28°F").
Proof. reflexivity. Qed.

Example classify_wind_45 :
  let rc := derive_road_condition
              (Some (mkWeatherData (Some 60) (Some "45 mph") (Some "Sunny"))) [] in
  (condition rc, rc_severity rc, description rc)
  = ("dangerous_wind", 3, "Dangerous crosswinds at 45 mph").
Proof. reflexivity. Qed.

Example classify_zero_degrees :
  let rc := derive_road_condition
              (Some (mkWeatherData (Some 0) (Some "5 mph") (Some "Freezing Rain"))) [] in
  (condition rc, rc_severity rc, description rc)
  = ("wet", 1, "Wet roads - freezing rain").
Proof. reflexivity. Qed.

Example score_clear :
  calculate_safety_score [mkWaypointWeather at_start (Some clear_day) []] "car"
  = mkSafetyScore 100 "low" "Car/Sedan" ["Good driving conditions"]
      ["Safe travels! Normal driving conditions expected"].
Proof. reflexivity. Qed.

Example score_snow_semi :
  calculate_safety_score
    [mkWaypointWeather at_start
       (Some (mkWeatherData (Some 20) (Some "35 mph") (Some "Heavy Snow"))) []]
    "semi"
  = mkSafetyScore 13 "extreme" "Semi Truck"
      ["Freezing temperatures - ice risk"; "High winds"; "Snow/winter conditions"]
      ["⚠️ Consider postponing trip if possible";
       "Reduce speed on bridges and overpasses";
       "Consider delaying trip - dangerous wind conditions for your vehicle";
       "Use winter driving mode, increase following distance"].
Proof. reflexivity. Qed.

Example hazards_clear :
  generate_hazard_alerts [mkWaypointWeather at_start (Some clear_day) []] = [].
Proof. reflexivity. Qed.

Example hazards_sorted :
  map (fun a => (ha_type a, ha_severity a, countdown_text a))
    (generate_hazard_alerts
       [mkWaypointWeather (mkWaypoint 0 0 None (Some 110%Q) None None)
          (Some (mkWeatherData (Some 30) (Some "45 mph") (Some "Fog"))) [];
        mkWaypointWeather at_start
          (Some (mkWeatherData (Some 50) (Some "10 mph") (Some "Thunderstorms"))) []])
  = [("rain", "high", "Heavy rain in 0 minutes at mile 0");
     ("wind", "extreme", "High winds in 120 minutes");
     ("ice", "high", "Ice risk zone in 120 minutes");
     ("visibility", "high", "Fog in 120 minutes")].
Proof. reflexivity. Qed.

Example packing_clear :
  map item (generate_packing_suggestions
              [mkWaypointWeather at_start (Some clear_day) []])
  = ["Sunglasses"; "Sunscreen"; "Phone charger"; "Snacks & water"].
Proof. reflexivity. Qed.

Example trucker_two_windy_stops :
  generate_trucker_warnings
    [mkWaypointWeather (mkWaypoint 0 0 (Some "Start - Denver") (Some 0%Q) (Some 0) None)
       (Some (mkWeatherData (Some 50) (Some "40 mph") (Some "Clear"))) [];
     mkWaypointWeather (mkWaypoint 0 0 (Some "Start - Boulder") (Some 30%Q) (Some 33) None)
       (Some (mkWeatherData (Some 50) (Some "40 mph") (Some "Clear"))) []]
  = ["⚠️ DANGER: 40 mph winds at Start - Denver - Consider stopping until winds subside"].
Proof. reflexivity. Qed.

Example analyze_icy_then_flooded :
  analyze_route_conditions
    [mkWaypointWeather at_start (Some clear_day) [];
     mkWaypointWeather (mkWaypoint 0 0 None (Some 52.4%Q) (Some 57) None)
       (Some (mkWeatherData (Some 28) (Some "5 mph") (Some "Freezing Rain"))) [];
     mkWaypointWeather (mkWaypoint 0 0 (Some "End - Boulder") (Some 99%Q) (Some 108) None)
       (Some clear_day) [mkWeatherAlert "Flash Flood Warning issued" "Severe" "Flash Flood Warning"]]
  = ("⚠️ Road hazards detected: 1 segments with ICY ROADS, 1 segments with FLOODING",
     "flooded", true,
     Some "ICY ROADS conditions at Mile 52 - Freezing precipitation at 28°F").
Proof. reflexivity. Qed.

(** ** Strings *)

Lemma append_empty_r (s : string) : s ++ "" = s.
Proof. induction s as [|c s IH]; simpl; [reflexivity | now rewrite IH]. Qed.

Lemma append_assoc (a b c : string) : (a ++ b) ++ c = a ++ (b ++ c).
Proof. induction a as [|x a IH]; simpl; [reflexivity | now rewrite IH]. Qed.

Lemma append_not_empty (a : string) (c : ascii) (b : string) :
  a ++ String c b <> "".
Proof. destruct a; discriminate. Qed.

Lemma prefix_app (n h : string) :
  String.prefix n h = true <-> exists s, h = n ++ s.
Proof.
  revert h; induction n as [|c n IH]; intros [|d h]; simpl.
  - split; [intros _; now exists "" | reflexivity].
  - split; [intros _; now exists (String d h) | reflexivity].
  - split; [discriminate | intros [s Hs]; discriminate].
  - destruct (ascii_dec c d) as [->|Hcd].
    + rewrite IH; split; intros [s Hs]; exists s; congruence.
    + split; [discriminate | intros [s Hs]; congruence].
Qed.

(** [needle in hay] holds exactly when [hay] is some text, [needle], some
    text. *)
Lemma contains_app (n h : string) :
  PyStr.contains n h = true <-> exists p s, h = p ++ n ++ s.
Proof.
  induction h as [|d h IH]; cbn [PyStr.contains].
  - rewrite orb_false_r, prefix_app; split.
    + intros [s Hs]; now exists "", s.
    + intros [[|x p] [s Hs]]; [now exists s | discriminate].
  - rewrite orb_true_iff, prefix_app, IH; split.
    + intros [[s Hs] | (p & s & Hs)].
      * now exists "", s.
      * exists (String d p), s; simpl; now rewrite Hs.
    + intros ([|x p] & s & Hs).
      * left; now exists s.
      * right; exists p, s; simpl in Hs; congruence.
Qed.

Lemma contains_trans (a b c : string) :
  PyStr.contains a b = true -> PyStr.contains b c = true ->
  PyStr.contains a c = true.
Proof.
  rewrite !contains_app; intros (p & s & ->) (p' & s' & ->).
  exists (p' ++ p), (s ++ s'); now rewrite !append_assoc.
Qed.

(** A text without [b] is a text without any [a] that holds [b]. *)
Lemma contains_none (a b c : string) :
  PyStr.contains b a = true -> PyStr.contains b c = false ->
  PyStr.contains a c = false.
Proof.
  intros Hba Hbc; destruct (PyStr.contains a c) eqn:Hac; [|reflexivity].
  now rewrite (contains_trans b a c Hba Hac) in Hbc.
Qed.

(** ** Wind speed (claim C4) *)

Lemma split_from_word (s cur : string) :
  cur <> "" -> hd_error (PyStr.split_from cur s) = Some (cur ++ Reading.word s).
Proof.
  revert cur; induction s as [|c s IH]; intros cur Hcur; simpl.
  - destruct (String.eqb_spec cur ""); [contradiction|].
    simpl; now rewrite append_empty_r.
  - destruct (PyStr.isspace c).
    + destruct (String.eqb_spec cur ""); [contradiction|].
      simpl; now rewrite append_empty_r.
    + rewrite IH by apply append_not_empty.
      now rewrite append_assoc.
Qed.

(** [s.split()[0]] is the first word of [s]; it raises [IndexError] when
    [s] has none. *)
Lemma split_first_word (s : string) :
  hd_error (PyStr.split s)
  = match Reading.first_word s with
    | EmptyString => None
    | w => Some w
    end.
Proof.
  unfold PyStr.split; induction s as [|c s IH]; [reflexivity|].
  cbn [PyStr.split_from Reading.first_word].
  destruct (PyStr.isspace c) eqn:Hc.
  - exact IH.
  - cbn [String.eqb append]. rewrite split_from_word by discriminate.
    cbn [Reading.word]; rewrite Hc; reflexivity.
Qed.

Lemma filter_isdigit_empty : PyStr.filter PyStr.isdigit "" = "".
Proof. reflexivity. Qed.

Lemma first_token_int_word (s : string) :
  first_token_int s
  = PyStr.int_of_digits (PyStr.filter PyStr.isdigit (Reading.first_word s)).
Proof.
  unfold first_token_int.
  pose proof (split_first_word s) as H.
  destruct (PyStr.split s) as [|tok rest]; simpl in H.
  - destruct (Reading.first_word s); [reflexivity | discriminate].
  - destruct (Reading.first_word s); [discriminate | congruence].
Qed.

Lemma road_wind_speed_word (w : WeatherData) :
  road_wind_speed w = Reading.first_word_value (wind_speed w).
Proof.
  unfold road_wind_speed, Reading.first_word_value, or_str.
  destruct (wind_speed w) as [[|c s]|]; try reflexivity.
  now rewrite first_token_int_word.
Qed.

(** C4, as the code has it: the four components read the same number from
    every wind-speed text, and that number is the one written by all the
    digits of the first white-space-delimited word of the text (0 when the
    text is missing or empty, when that word holds no digit, or when [int]
    refuses the digits); so ["15 to 25 mph"] reads 15 and ["15-25 mph"]
    reads 1525 in every component. *)
Theorem wind_speed_first_word :
  forall w : WeatherData,
    safety_wind_speed w = Reading.first_word_value (wind_speed w)
    /\ hazard_wind_speed w = Reading.first_word_value (wind_speed w)
    /\ trucker_wind_speed w = Reading.first_word_value (wind_speed w)
    /\ road_wind_speed w = Reading.first_word_value (wind_speed w)
    /\ (forall temp conditions,
          map (fun f => f (mkWeatherData temp (Some "15 to 25 mph") conditions))
            [safety_wind_speed; hazard_wind_speed; trucker_wind_speed; road_wind_speed]
          = [15; 15; 15; 15])
    /\ (forall temp conditions,
          map (fun f => f (mkWeatherData temp (Some "15-25 mph") conditions))
            [safety_wind_speed; hazard_wind_speed; trucker_wind_speed; road_wind_speed]
          = [1525; 1525; 1525; 1525]).
Proof.
  intros w; repeat split; try apply road_wind_speed_word; reflexivity.
Qed.

(** C4 as stated fails: in the text ["15-25 mph"] the first run of digits
    is 15, and every component reads 1525; in ["Wind 15 mph"] it is 15
    again, and every component reads 0. *)
Lemma wind_speed_not_first_digit_run :
  let dash := mkWeatherData None (Some "15-25 mph") None in
  let worded := mkWeatherData None (Some "Wind 15 mph") None in
  Reading.wind_speed_value (wind_speed dash) = 15
  /\ map (fun f => f dash)
       [safety_wind_speed; hazard_wind_speed; trucker_wind_speed; road_wind_speed]
     = [1525; 1525; 1525; 1525]
  /\ Reading.wind_speed_value (wind_speed worded) = 15
  /\ map (fun f => f worded)
       [safety_wind_speed; hazard_wind_speed; trucker_wind_speed; road_wind_speed]
     = [0; 0; 0; 0].
Proof. repeat split. Qed.

(** ** Road condition classifier (claim C1) *)

Lemma or_str_empty (x : option string) :
  or_str x "" = match x with Some c => c | None => "" end.
Proof. now destruct x as [[|]|]. Qed.

Ltac open_mentions :=
  unfold Reading.severe_about, Reading.mentions, PyStr.contains_any;
  cbn [existsb]; rewrite ?orb_false_r.

Lemma mentions_one (word text : string) :
  Reading.mentions [word] text = PyStr.contains word (PyStr.lower text).
Proof. now open_mentions. Qed.

Lemma mentions_three (w1 w2 w3 text : string) :
  Reading.mentions [w1; w2; w3] text
  = PyStr.contains w1 (PyStr.lower text)
    || (PyStr.contains w2 (PyStr.lower text)
        || PyStr.contains w3 (PyStr.lower text)).
Proof. now open_mentions. Qed.

(** The loop over the severe alerts stops at the first one about flood,
    ice or freezing. *)
Lemma severe_alert_condition_first (alerts : list WeatherAlert) :
  option_map verdict (severe_alert_condition (List.filter is_severe alerts))
  = Reading.first_alert_rule alerts.
Proof.
  unfold Reading.first_alert_rule.
  induction alerts as [|a alerts IH]; [reflexivity|].
  cbn [List.filter find]; unfold Reading.severe_about at 1.
  destruct (is_severe a); cbn [andb]; [|exact IH].
  rewrite mentions_three; cbn [severe_alert_condition].
  destruct (PyStr.contains "flood" (PyStr.lower (event a))) eqn:Hflood.
  - cbn [orb option_map]. now rewrite mentions_one, Hflood.
  - rewrite (contains_none "flash flood" "flood" _ eq_refl Hflood).
    cbn [orb].
    destruct (PyStr.contains "ice" (PyStr.lower (event a))
              || PyStr.contains "freezing" (PyStr.lower (event a)));
      [|exact IH].
    cbn [option_map]. now rewrite mentions_one, Hflood.
Qed.

Lemma weather_condition_rules (temp : option Z) (conditions : string) (wind : Z) :
  temp <> Some 0 ->
  verdict (weather_condition (or_int temp 50) (PyStr.lower conditions) wind)
  = Reading.weather_rules temp conditions wind.
Proof.
  intros Htemp.
  unfold weather_condition, Reading.weather_rules; open_mentions.
  rewrite <- ?orb_assoc.
  destruct temp as [t|].
  - replace (or_int (Some t) 50) with t by (destruct t; [congruence | reflexivity ..]).
    rewrite (andb_comm (t <=? 36)).
    repeat match goal with
           | |- context [if ?b then _ else _] => destruct b
           end; reflexivity.
  - cbn [or_int andb]. change (50 <=? 32) with false. change (50 <=? 36) with false.
    cbn [andb].
    repeat match goal with
           | |- context [if ?b then _ else _] => destruct b
           end; reflexivity.
Qed.

(** C1, as the code has it: for every input whose temperature reading is
    not exactly 0, [derive_road_condition] returns the first matching rule
    of the ten-step order in which steps 2 and 3 are taken alert by alert
    (the first Extreme-or-Severe alert about flood, ice or freezing
    decides: flooded/4 if it is about flood, icy/3 otherwise).  In
    particular 28 degrees with "Freezing Rain" is icy/3, and "45 mph" on a
    clear day at 60 degrees is dangerous_wind/3. *)
Theorem derive_road_condition_first_match :
  forall (weather : option WeatherData) (alerts : list WeatherAlert),
    (forall w, weather = Some w -> temperature w <> Some 0) ->
    verdict (derive_road_condition weather alerts)
    = Reading.classify Reading.first_alert_rule weather alerts
    /\ (forall wind,
          verdict (derive_road_condition
                     (Some (mkWeatherData (Some 28) wind (Some "Freezing Rain"))) [])
          = ("icy", 3))
    /\ verdict (derive_road_condition
                  (Some (mkWeatherData (Some 60) (Some "45 mph") (Some "Clear"))) [])
       = ("dangerous_wind", 3).
Proof.
  intros weather alerts Htemp; split; [|split; [intros wind|]; reflexivity].
  destruct weather as [w|]; [|reflexivity].
  unfold derive_road_condition, Reading.classify.
  rewrite <- severe_alert_condition_first.
  destruct (severe_alert_condition (List.filter is_severe alerts)) as [rc|];
    [reflexivity|].
  cbn [option_map]; rewrite <- or_str_empty.
  apply weather_condition_rules, Htemp; reflexivity.
Qed.

Lemma derive_road_condition_first_match_witness :
  let w := mkWeatherData (Some 34) (Some "10 mph") (Some "Cloudy") in
  let alerts := [mkWeatherAlert "Ice Storm Warning until 6 PM" "Severe" "Ice Storm Warning";
                 mkWeatherAlert "Flood Warning until 6 PM" "Severe" "Flood Warning"] in
  verdict (derive_road_condition (Some w) alerts) = ("icy", 3)
  /\ verdict (derive_road_condition (Some w) []) = ("slippery", 2).
Proof.
  split.
  - apply (derive_road_condition_first_match
             (Some (mkWeatherData (Some 34) (Some "10 mph") (Some "Cloudy")))
             [mkWeatherAlert "Ice Storm Warning until 6 PM" "Severe" "Ice Storm Warning";
              mkWeatherAlert "Flood Warning until 6 PM" "Severe" "Flood Warning"]).
    intros w H; injection H as <-; discriminate.
  - apply (derive_road_condition_first_match
             (Some (mkWeatherData (Some 34) (Some "10 mph") (Some "Cloudy"))) []).
    intros w H; injection H as <-; discriminate.
Defined.

(** C1 as stated fails twice.  With a severe ice alert listed before a
    severe flood alert, step 2 of the documented order matches (flooded/4)
    and the code returns icy/3.  At a reported 0 degrees with "Freezing
    Rain", step 4 matches (icy/3) and the code returns wet/1. *)
Lemma derive_road_condition_not_documented_order :
  let fair := mkWeatherData (Some 60) (Some "5 mph") (Some "Cloudy") in
  let alerts := [mkWeatherAlert "Ice Storm Warning until 6 PM" "Severe" "Ice Storm Warning";
                 mkWeatherAlert "Flood Warning until 6 PM" "Severe" "Flood Warning"] in
  let zero := mkWeatherData (Some 0) (Some "5 mph") (Some "Freezing Rain") in
  Reading.classify Reading.alert_rule (Some fair) alerts = ("flooded", 4)
  /\ verdict (derive_road_condition (Some fair) alerts) = ("icy", 3)
  /\ Reading.classify Reading.alert_rule (Some zero) [] = ("icy", 3)
  /\ verdict (derive_road_condition (Some zero) []) = ("wet", 1).
Proof. repeat split. Qed.

(** ** Safety score and hazard alerts (claims C2, C3) *)

Lemma score_missing_weather (vt : string) (v : VehicleProfile)
    (wps : list WaypointWeather) (t : Tally) :
  forallb (fun wp => match weather wp with None => true | Some _ => false end) wps
  = true ->
  fold_left (score_waypoint vt v) wps t = t.
Proof.
  revert t; induction wps as [|wp wps IH]; intros t H; [reflexivity|].
  cbn [forallb] in H; apply andb_true_iff in H as [Hwp Hwps].
  cbn [fold_left]; unfold score_waypoint at 2.
  destruct (weather wp); [discriminate | now apply IH].
Qed.

(** What [quiet] says, one test at a time. *)
Lemma quiet_inv (wp : WaypointWeather) :
  quiet wp = true ->
  exists w,
    weather wp = Some w /\ temperature w = Some 70
    /\ safety_wind_speed w = 0 /\ alerts wp = []
    /\ forall word,
         In word ["snow"; "blizzard"; "rain"; "storm"; "fog"; "shower"] ->
         PyStr.contains word (PyStr.lower (or_str (conditions w) "")) = false.
Proof.
  unfold quiet; destruct (weather wp) as [w|]; [|discriminate].
  rewrite !andb_true_iff, negb_true_iff; intros [[[Ht Hw] Ha] Hc].
  exists w; repeat split.
  - destruct (temperature w) as [[|p|p]|]; try discriminate.
    repeat (destruct p as [p|p|]; try discriminate); reflexivity.
  - now apply Z.eqb_eq.
  - now destruct (alerts wp).
  - unfold Reading.mentions, PyStr.contains_any in Hc.
    intros word Hword.
    destruct (PyStr.contains word _) eqn:E; [|reflexivity].
    assert (existsb (fun w0 => PyStr.contains w0 (PyStr.lower (or_str (conditions w) "")))
              ["snow"; "blizzard"; "rain"; "storm"; "fog"; "shower"] = true) as X
      by (apply existsb_exists; now exists word).
    congruence.
Qed.

Lemma score_waypoint_quiet (vt : string) (v : VehicleProfile)
    (t : Tally) (wp : WaypointWeather) :
  quiet wp = true -> score_waypoint vt v t wp = t.
Proof.
  intros H; apply quiet_inv in H as (w & Hw & Ht & Hwind & Ha & Hc).
  unfold score_waypoint; rewrite Hw, Ha; cbn [fold_left].
  unfold score_conditions, score_wind, score_temperature.
  rewrite Hwind, Ht.
  rewrite !Hc by (cbn [In]; tauto).
  reflexivity.
Qed.

Lemma waypoint_hazards_quiet (wp : WaypointWeather) :
  quiet wp = true -> waypoint_hazards wp = [].
Proof.
  intros H; apply quiet_inv in H as (w & Hw & Ht & Hwind & Ha & Hc).
  unfold waypoint_hazards; rewrite Hw, Ha.
  unfold wind_hazard, rain_hazard, snow_hazard, ice_hazard, fog_hazard.
  change (hazard_wind_speed w) with (safety_wind_speed w).
  rewrite Hwind, Ht.
  rewrite (contains_none "heavy rain" "rain" _ eq_refl (Hc "rain" ltac:(cbn [In]; tauto))).
  rewrite !Hc by (cbn [In]; tauto).
  reflexivity.
Qed.

Lemma score_quiet (vt : string) (v : VehicleProfile)
    (wps : list WaypointWeather) (t : Tally) :
  forallb quiet wps = true -> fold_left (score_waypoint vt v) wps t = t.
Proof.
  revert t; induction wps as [|wp wps IH]; intros t H; [reflexivity|].
  cbn [forallb] in H; apply andb_true_iff in H as [Hwp Hwps].
  cbn [fold_left]; rewrite score_waypoint_quiet by assumption; now apply IH.
Qed.

Lemma hazards_quiet (wps : list WaypointWeather) :
  forallb quiet wps = true -> flat_map waypoint_hazards wps = [].
Proof.
  induction wps as [|wp wps IH]; intros H; [reflexivity|].
  cbn [forallb] in H; apply andb_true_iff in H as [Hwp Hwps].
  cbn [flat_map]; rewrite waypoint_hazards_quiet by assumption; now apply IH.
Qed.

(** The score of an untouched tally. *)
Lemma untouched_score (wps : list WaypointWeather) (vt : string) :
  fold_left (score_waypoint vt (dict_get VEHICLE_TYPES vt car_profile)) wps
    (mkTally 100 [] [])
  = mkTally 100 [] [] ->
  calculate_safety_score wps vt
  = mkSafetyScore 100 "low"
      (vehicle_name (dict_get VEHICLE_TYPES vt car_profile))
      ["Good driving conditions"]
      ["Safe travels! Normal driving conditions expected"].
Proof. intros H; unfold calculate_safety_score; now rewrite H. Qed.

(** C2, as the code has it: the score is an integer between 0 and 100;
    when every waypoint lacks weather the score is 100, the level "low",
    with the default factor and recommendation alone; and when every
    waypoint is quiet (wind read as 0, 70 degrees, no alert, and a
    conditions text without snow, blizzard, rain, storm, fog or shower)
    the score is 100, the level "low", and no hazard alert is
    generated. *)
Theorem safety_score_bounded :
  forall (waypoints_weather : list WaypointWeather) (vehicle_type : string),
    let s := calculate_safety_score waypoints_weather vehicle_type in
    0 <= overall_score s <= 100
    /\ (forallb (fun wp => match weather wp with None => true | Some _ => false end)
          waypoints_weather = true ->
        overall_score s = 100
        /\ factors s = ["Good driving conditions"]
        /\ recommendations s = ["Safe travels! Normal driving conditions expected"])
    /\ (forallb quiet waypoints_weather = true ->
        overall_score s = 100 /\ risk_level s = "low"
        /\ generate_hazard_alerts waypoints_weather = []).
Proof.
  intros wps vt s; split; [|split].
  - subst s; unfold calculate_safety_score; cbn [overall_score]; lia.
  - intros H; subst s.
    rewrite untouched_score by (now apply score_missing_weather).
    repeat split.
  - intros H; subst s.
    rewrite untouched_score by (now apply score_quiet).
    unfold generate_hazard_alerts; rewrite hazards_quiet by assumption.
    repeat split.
Qed.

Lemma safety_score_bounded_witness :
  let quiet_stop := mkWaypointWeather at_start (Some clear_day) [] in
  let blind_stop := mkWaypointWeather at_start None [] in
  (overall_score (calculate_safety_score [blind_stop; blind_stop] "rv") = 100
   /\ factors (calculate_safety_score [blind_stop; blind_stop] "rv")
      = ["Good driving conditions"]
   /\ recommendations (calculate_safety_score [blind_stop; blind_stop] "rv")
      = ["Safe travels! Normal driving conditions expected"])
  /\ (overall_score (calculate_safety_score [quiet_stop; quiet_stop] "rv") = 100
      /\ risk_level (calculate_safety_score [quiet_stop; quiet_stop] "rv") = "low"
      /\ generate_hazard_alerts [quiet_stop; quiet_stop] = []).
Proof.
  split.
  - apply (safety_score_bounded
             [mkWaypointWeather at_start None []; mkWaypointWeather at_start None []]
             "rv").
    reflexivity.
  - apply (safety_score_bounded
             [mkWaypointWeather at_start (Some clear_day) [];
              mkWaypointWeather at_start (Some clear_day) []]
             "rv").
    reflexivity.
Defined.

(** C2 as stated fails: a waypoint at 70 degrees with wind "0 mph" and no
    alert, under "Snow", scores 75 ("moderate") and raises a snow
    hazard. *)
Lemma safety_score_quiet_needs_conditions :
  let snowy := mkWaypointWeather at_start
                 (Some (mkWeatherData (Some 70) (Some "0 mph") (Some "Snow"))) [] in
  safety_wind_speed (mkWeatherData (Some 70) (Some "0 mph") (Some "Snow")) = 0
  /\ overall_score (calculate_safety_score [snowy] "car") = 75
  /\ risk_level (calculate_safety_score [snowy] "car") = "moderate"
  /\ map ha_type (generate_hazard_alerts [snowy]) = ["snow"].
Proof. repeat split. Qed.

(** C3 at its failing input: two waypoints under the same severe alert.
    The alert's factor is recorded twice, because the membership test
    reads [alert.event] and the list holds ["Weather alert: " +
    alert.event]. *)
Theorem safety_factors_repeat_alert :
  let warning := mkWeatherAlert "Winter Storm Warning until noon" "Severe"
                   "Winter Storm Warning" in
  let stop := mkWaypointWeather at_start (Some clear_day) [warning] in
  factors (calculate_safety_score [stop; stop] "car")
  = ["Weather alert: Winter Storm Warning";
     "Weather alert: Winter Storm Warning"]
  /\ ~ NoDup (factors (calculate_safety_score [stop; stop] "car")).
Proof.
  split; [reflexivity|].
  intros H; inversion H as [|x l Hin _]; subst.
  apply Hin; left; reflexivity.
Qed.

(** Whatever the input, the two lists of a score are cut to five factors
    and four recommendations. *)
Lemma safety_lists_capped (wps : list WaypointWeather) (vt : string) :
  (List.length (factors (calculate_safety_score wps vt)) <= 5)%nat
  /\ (List.length (recommendations (calculate_safety_score wps vt)) <= 4)%nat.
Proof.
  unfold calculate_safety_score; cbn [factors recommendations].
  split; apply firstn_le_length.
Qed.

(** ** Packing suggestions (claim C7) *)

Lemma packing_capped (wps : list WaypointWeather) :
  (List.length (generate_packing_suggestions wps) <= 8)%nat.
Proof. apply firstn_le_length. Qed.

(** C7 at its failing input: a freezing, wet and windy stop followed by a
    hot and sunny one triggers eight suggestions ahead of the two that the
    source appends under [# Always recommend], and the cut to eight drops
    both. *)
Theorem packing_drops_always_recommended :
  let cold := mkWaypointWeather at_start
                (Some (mkWeatherData (Some 20) (Some "20 mph") (Some "Rain and Snow")))
                [] in
  let hot := mkWaypointWeather at_start
               (Some (mkWeatherData (Some 90) (Some "5 mph") (Some "Sunny"))) [] in
  map item (generate_packing_suggestions [cold; hot])
  = ["Warm jacket"; "Gloves & hat"; "Extra water"; "Layers";
     "Umbrella/rain jacket"; "Snow gear & emergency kit"; "Windbreaker";
     "Sunglasses"]
  /\ ~ In "Phone charger" (map item (generate_packing_suggestions [cold; hot]))
  /\ ~ In "Snacks & water" (map item (generate_packing_suggestions [cold; hot])).
Proof.
  split; [reflexivity|].
  split; intros H; vm_compute in H; intuition discriminate.
Qed.

(** ** Reroute decision (claim C8) *)

Lemma reroute_text_not_empty (wp : WaypointWeather) (rc : RoadCondition) :
  reroute_text wp rc <> "".
Proof. unfold reroute_text; apply append_not_empty. Qed.

Lemma analyze_fold (wps : list WaypointWeather) (a : Analysis) :
  (forall r, reroute_reason a = Some r -> r <> "") ->
  reroute_needed (fold_left analyze_waypoint wps a)
  = reroute_needed a || existsb severe_here wps
  /\ reroute_reason (fold_left analyze_waypoint wps a)
     = match reroute_reason a with
       | Some r => Some r
       | None => first_reroute_text wps
       end.
Proof.
  revert a; induction wps as [|wp wps IH]; intros a Ha.
  - cbn [fold_left existsb]; rewrite orb_false_r.
    split; [reflexivity | now destruct (reroute_reason a)].
  - cbn [fold_left].
    destruct (IH (analyze_waypoint a wp)) as [IHn IHr].
    + unfold analyze_waypoint; cbn [reroute_reason].
      destruct (3 <=? _); [|exact Ha].
      destruct (reroute_reason a) as [[|c r]|] eqn:E; intros r' Hr';
        injection Hr' as <-; try apply reroute_text_not_empty; discriminate.
    + rewrite IHn, IHr; clear IHn IHr IH.
      unfold first_reroute_text; cbn [existsb find].
      unfold analyze_waypoint; cbn [reroute_needed reroute_reason].
      change (3 <=? rc_severity (derive_road_condition (weather wp) (alerts wp)))
        with (severe_here wp).
      destruct (severe_here wp).
      * split; [cbn [orb]; now rewrite orb_true_r|].
        destruct (reroute_reason a) as [[|c r]|] eqn:E; try reflexivity.
        now destruct (Ha "" eq_refl).
      * split; reflexivity.
Qed.

(** C8: [reroute_recommended] is true exactly when some waypoint's road
    condition has severity 3 or more, and the reason is the text built at
    the first such waypoint of the route ([None] when there is none). *)
Theorem reroute_iff_severe_waypoint :
  forall waypoints_weather : list WaypointWeather,
    let '(_, _, reroute, reason) := analyze_route_conditions waypoints_weather in
    (reroute = true <->
     exists wp, In wp waypoints_weather
                /\ 3 <= rc_severity (derive_road_condition (weather wp) (alerts wp)))
    /\ reason
       = option_map
           (fun wp => reroute_text wp
                        (derive_road_condition (weather wp) (alerts wp)))
           (find severe_here waypoints_weather).
Proof.
  intros wps; unfold analyze_route_conditions.
  destruct (analyze_fold wps (mkAnalysis [] 0 "dry" false None)) as [Hn Hr];
    [discriminate|].
  rewrite Hn, Hr; cbn [reroute_needed reroute_reason orb]; split; [|reflexivity].
  rewrite existsb_exists; unfold severe_here.
  split; intros (wp & Hin & Hs); exists wp; split; auto;
    now apply Z.leb_le.
Qed.

(** ** Temperature defaults (claim C10) *)

Lemma or_int_fill (t : option Z) (d : Z) :
  d <> 0 -> or_int (Some (or_int t d)) d = or_int t d.
Proof.
  intros Hd; destruct t as [[|p|p]|]; try reflexivity;
    cbn [or_int]; destruct d; congruence.
Qed.

Lemma derive_fill (w : WeatherData) (alerts : list WeatherAlert) :
  derive_road_condition (Some (fill_temperature 50 w)) alerts
  = derive_road_condition (Some w) alerts.
Proof.
  unfold derive_road_condition, fill_temperature, road_wind_speed.
  cbn [temperature wind_speed conditions].
  now rewrite or_int_fill.
Qed.

Lemma score_waypoint_fill (vt : string) (v : VehicleProfile) (t : Tally)
    (wp : WaypointWeather) :
  score_waypoint vt v t (fill_waypoint 70 wp) = score_waypoint vt v t wp.
Proof.
  unfold score_waypoint, fill_waypoint; cbn [weather alerts].
  destruct (weather wp) as [w|]; [|reflexivity]; cbn [option_map].
  unfold score_conditions, score_wind, score_temperature, safety_wind_speed,
    fill_temperature.
  cbn [temperature wind_speed conditions].
  now rewrite or_int_fill.
Qed.

Lemma waypoint_hazards_fill (wp : WaypointWeather) :
  waypoint_hazards (fill_waypoint 70 wp) = waypoint_hazards wp.
Proof.
  unfold waypoint_hazards, fill_waypoint; cbn [weather alerts].
  destruct (weather wp) as [w|]; [|reflexivity]; cbn [option_map].
  unfold wind_hazard, ice_hazard, hazard_wind_speed, fill_temperature.
  cbn [temperature wind_speed conditions].
  now rewrite or_int_fill.
Qed.

Lemma waypoint_warnings_fill (wp : WaypointWeather) :
  waypoint_warnings (fill_waypoint 70 wp) = waypoint_warnings wp.
Proof.
  unfold waypoint_warnings, fill_waypoint; cbn [weather alerts].
  destruct (weather wp) as [w|]; [|reflexivity]; cbn [option_map].
  unfold wind_warning, trucker_wind_speed, fill_temperature, waypoint_location,
    waypoint_distance.
  cbn [temperature wind_speed conditions waypoint].
  now rewrite or_int_fill.
Qed.

(** The packing scan takes a temperature of 0 for a missing one. *)
Lemma packing_skips_zero_temperature (f : Forecast) (wp : Waypoint)
    (wind conditions : option string) (alerts : list WeatherAlert) :
  scan_waypoint f
    (mkWaypointWeather wp (Some (mkWeatherData (Some 0) wind conditions)) alerts)
  = scan_waypoint f
      (mkWaypointWeather wp (Some (mkWeatherData None wind conditions)) alerts).
Proof. reflexivity. Qed.

Lemma fold_left_map {A B C : Type} (f : A -> C -> A) (g : B -> C)
    (l : list B) (a : A) :
  fold_left f (map g l) a = fold_left (fun x y => f x (g y)) l a.
Proof. revert a; induction l as [|y l IH]; intros a; [reflexivity | apply IH]. Qed.

Lemma fold_left_ext {A B : Type} (f g : A -> B -> A) (l : list B) (a : A) :
  (forall x y, f x y = g x y) -> fold_left f l a = fold_left g l a.
Proof.
  intros H; revert a; induction l as [|y l IH]; intros a; [reflexivity|].
  cbn [fold_left]; now rewrite H, IH.
Qed.

Lemma no_ice_at_default (wind conditions : option string) (temp : option Z) :
  or_int temp 50 = 50 ->
  condition (derive_road_condition (Some (mkWeatherData temp wind conditions)) [])
  <> "icy".
Proof.
  intros H; unfold derive_road_condition; cbn [List.filter severe_alert_condition temperature].
  rewrite H; unfold weather_condition.
  change (50 <=? 32) with false; cbn [andb].
  repeat match goal with
         | |- context [if ?b then _ else _] => destruct b
         end; discriminate.
Qed.

(** C10: a temperature of exactly 0, like a missing one, is read as 50 by
    the road-condition classifier and as 70 by the safety scorer, the
    hazard generator and the trucker warnings.  So at a reported 0 degrees
    the classifier never answers "icy" on the weather alone ("Freezing
    Rain" in a light wind is wet/1), the scorer charges no temperature
    penalty, and the generator raises no ice hazard. *)
Theorem zero_temperature_reads_as_default :
  forall (w : WeatherData) (alerts : list WeatherAlert)
         (waypoints_weather : list WaypointWeather) (vehicle_type : string)
         (wind conditions : option string),
    derive_road_condition (Some (fill_temperature 50 w)) alerts
    = derive_road_condition (Some w) alerts
    /\ calculate_safety_score (map (fill_waypoint 70) waypoints_weather) vehicle_type
       = calculate_safety_score waypoints_weather vehicle_type
    /\ generate_hazard_alerts (map (fill_waypoint 70) waypoints_weather)
       = generate_hazard_alerts waypoints_weather
    /\ generate_trucker_warnings (map (fill_waypoint 70) waypoints_weather)
       = generate_trucker_warnings waypoints_weather
    /\ condition (derive_road_condition
                    (Some (mkWeatherData (Some 0) wind conditions)) []) <> "icy"
    /\ condition (derive_road_condition
                    (Some (mkWeatherData None wind conditions)) []) <> "icy"
    /\ verdict (derive_road_condition
                  (Some (mkWeatherData (Some 0) (Some "5 mph") (Some "Freezing Rain")))
                  [])
       = ("wet", 1)
    /\ (forall vehicle t,
          score_temperature vehicle (mkWeatherData (Some 0) wind conditions) t = t
          /\ score_temperature vehicle (mkWeatherData None wind conditions) t = t)
    /\ (forall distance eta_mins,
          ice_hazard distance eta_mins (mkWeatherData (Some 0) wind conditions) = []
          /\ ice_hazard distance eta_mins (mkWeatherData None wind conditions) = []).
Proof.
  intros w alerts wps vt wind conditions.
  split; [apply derive_fill|].
  split.
  { unfold calculate_safety_score; rewrite fold_left_map.
    now rewrite (fold_left_ext _ (score_waypoint vt (dict_get VEHICLE_TYPES vt car_profile)))
      by (intros; apply score_waypoint_fill). }
  split.
  { unfold generate_hazard_alerts; rewrite flat_map_concat_map, map_map.
    rewrite (map_ext _ waypoint_hazards) by apply waypoint_hazards_fill.
    now rewrite <- flat_map_concat_map. }
  split.
  { unfold generate_trucker_warnings; rewrite flat_map_concat_map, map_map.
    rewrite (map_ext _ waypoint_warnings) by apply waypoint_warnings_fill.
    now rewrite <- flat_map_concat_map. }
  split; [now apply no_ice_at_default|].
  split; [now apply no_ice_at_default|].
  split; [reflexivity|].
  split; intros; split; reflexivity.
Qed.

(** ** Waypoint sampling (claim C5) *)

Section Sampling_facts.

Variable haversine_distance : Q -> Q -> Q -> Q -> option Q.
Variable polyline_decode : string -> option (list (Q * Q)).
Variable datetime : Type.
Variable add_minutes : datetime -> Z -> option datetime.
Variable isoformat : datetime -> string.

(** The distance from a point to itself is zero, and computing it does
    not raise: the source computes [sin(0)**2 + cos(..)*cos(..)*sin(0)**2],
    then [atan2(sqrt(0), sqrt(1))]. *)
Hypothesis haversine_same_point :
  forall la lo, exists d, haversine_distance la lo la lo = Some d /\ (d == 0)%Q.

Local Notation "'sample_from''" :=
  (sample_from haversine_distance datetime add_minutes isoformat).
Local Notation "'needs_destination''" := (needs_destination haversine_distance).
Local Notation "'along'" :=
  (waypoints_along haversine_distance datetime add_minutes isoformat).
Local Notation "'extract'" :=
  (extract_waypoints_from_route haversine_distance polyline_decode datetime
     add_minutes isoformat).
Local Notation "'arrives''" := (arrives add_minutes isoformat).

Lemma mile_waypoint_some (dep : datetime) (lat2 lon2 total : Q) (wp : Waypoint) :
  mile_waypoint datetime add_minutes isoformat dep lat2 lon2 total = Some wp ->
  unnamed_destination wp /\ arrives' dep wp.
Proof.
  unfold mile_waypoint.
  destruct (add_minutes dep (calculate_eta total)) as [t|] eqn:Ht; [|discriminate].
  intros [= <-]; split; [discriminate|].
  exists (calculate_eta total), t; repeat split; assumption.
Qed.

(** The loop only appends, and only waypoints named "Mile ..." whose
    arrival time could be computed. *)
Lemma sample_from_appends (interval : Q) (dep : datetime)
    (rest : list (Q * Q)) (prev : Q * Q) (s s' : Sampling) :
  sample_from' interval dep prev rest s = Some s' ->
  exists more,
    emitted s' = (emitted s ++ more)%list
    /\ Forall unnamed_destination more
    /\ Forall (arrives' dep) more.
Proof.
  revert prev s; induction rest as [|cur rest IH]; intros prev s.
  - intros [= <-]; exists []; now rewrite app_nil_r.
  - cbn [sample_from]; destruct prev as [lat1 lon1], cur as [lat2 lon2].
    destruct (haversine_distance lat1 lon1 lat2 lon2) as [segment|];
      [|discriminate].
    destruct (Qle_bool _ _).
    + destruct (mile_waypoint _ _ _ _ _ _ _) as [wp|] eqn:Hwp; [|discriminate].
      apply mile_waypoint_some in Hwp as [Hname Harrives].
      intros H; apply IH in H as (more & Hmore & Hnames & Htimes).
      exists (wp :: more); cbn [emitted] in Hmore.
      rewrite Hmore, <- app_assoc; repeat split; now constructor.
    + intros H; apply IH in H as (more & Hmore & Hnames & Htimes).
      exists more; repeat split; assumption.
Qed.

(** A distance that raises between two consecutive coordinates stops the
    loop, whatever came before. *)
Lemma sample_from_raises (interval : Q) (dep : datetime)
    (rest : list (Q * Q)) (prev : Q * Q) (s : Sampling) (p q : Q * Q) :
  In (p, q) (combine (prev :: rest) rest) ->
  haversine_distance (fst p) (snd p) (fst q) (snd q) = None ->
  sample_from' interval dep prev rest s = None.
Proof.
  revert prev s; induction rest as [|cur rest IH]; intros prev s Hin Hnone;
    [destruct Hin|].
  cbn [sample_from]; destruct prev as [lat1 lon1], cur as [lat2 lon2].
  cbn [combine In] in Hin; destruct Hin as [[= <- <-]|Hin].
  - cbn [fst snd] in Hnone; now rewrite Hnone.
  - destruct (haversine_distance lat1 lon1 lat2 lon2); [|reflexivity].
    destruct (Qle_bool _ _); [destruct (mile_waypoint _ _ _ _ _ _ _)|];
      try reflexivity; now apply IH.
Qed.

(** The loop stops early only where a distance or an arrival time
    raised. *)
Lemma sample_from_none (interval : Q) (dep : datetime)
    (rest : list (Q * Q)) (prev : Q * Q) (s : Sampling) :
  sample_from' interval dep prev rest s = None ->
  (exists p q, In (p, q) (combine (prev :: rest) rest)
               /\ haversine_distance (fst p) (snd p) (fst q) (snd q) = None)
  \/ (exists m, add_minutes dep m = None).
Proof.
  revert prev s; induction rest as [|cur rest IH]; intros prev s; [discriminate|].
  cbn [sample_from]; destruct prev as [lat1 lon1], cur as [lat2 lon2].
  destruct (haversine_distance lat1 lon1 lat2 lon2) as [segment|] eqn:Hd.
  - assert (Hnext : forall s0,
               sample_from' interval dep (lat2, lon2) rest s0 = None ->
               (exists p q,
                   In (p, q) (combine ((lat1, lon1) :: (lat2, lon2) :: rest)
                                ((lat2, lon2) :: rest))
                   /\ haversine_distance (fst p) (snd p) (fst q) (snd q) = None)
               \/ (exists m, add_minutes dep m = None)).
    { intros s0 H; apply IH in H as [(p & q & Hin & Hnone)|H]; [left | now right].
      exists p, q; split; [right; exact Hin | exact Hnone]. }
    destruct (Qle_bool _ _); [|apply Hnext].
    unfold mile_waypoint.
    destruct (add_minutes dep _) as [t|] eqn:Ht; [apply Hnext|].
    intros _; right; eexists; exact Ht.
  - intros _; left; exists (lat1, lon1), (lat2, lon2); split; [now left | exact Hd].
Qed.

(** C5, as the code has it, for a polyline that decodes to the
    coordinates [first :: rest].  A distance that raises between two
    consecutive coordinates empties the result, and the result is empty
    only where a distance or an arrival time raised.  A result that is not
    empty starts with a waypoint named "Start" at distance 0; its last
    waypoint is within 10 miles of the final coordinate; a waypoint named
    "Destination" is present exactly when the loop emitted nothing after
    "Start" or its most recent waypoint is more than 10 miles from the
    final coordinate, in which case it is the last waypoint and sits on
    the final coordinate; and every waypoint after "Start" carries an
    arrival time that was computed without raising. *)
Theorem waypoints_start_and_destination :
  forall (encoded : string) (interval : Q) (dep : datetime)
         (first : Q * Q) (rest : list (Q * Q)),
    polyline_decode encoded = Some (first :: rest) ->
    let start := start_waypoint datetime isoformat dep first in
    let final := List.last rest first in
    let wps := extract encoded interval dep in
    ((exists p q, In (p, q) (combine (first :: rest) rest)
                  /\ haversine_distance (fst p) (snd p) (fst q) (snd q) = None) ->
     wps = [])
    /\ (wps = [] ->
        (exists la1 lo1 la2 lo2, haversine_distance la1 lo1 la2 lo2 = None)
        \/ (exists m, add_minutes dep m = None))
    /\ (wps <> [] ->
        exists s,
          sample_from' interval dep first rest (mkSampling [start] 0 0) = Some s
          /\ let sampled := emitted s in
             let latest := List.last sampled start in
             (exists more, wps = start :: more
                           /\ name start = Some "Start"
                           /\ distance_from_start start = Some 0%Q
                           /\ Forall (arrives' dep) more)
             /\ (exists d,
                    haversine_distance (lat (List.last wps start))
                      (lon (List.last wps start)) (fst final) (snd final) = Some d
                    /\ (d <= 10)%Q)
             /\ ((exists w, In w wps /\ name w = Some "Destination")
                 <-> (List.length sampled = 1%nat
                      \/ exists d,
                           haversine_distance (lat latest) (lon latest)
                             (fst final) (snd final) = Some d
                           /\ (10 < d)%Q))
             /\ (forall w, In w wps -> name w = Some "Destination" ->
                           w = List.last wps start
                           /\ lat w = fst final /\ lon w = snd final)).
Proof.
  intros encoded interval dep first rest Hdec start final wps.
  assert (Hwps : wps = match along interval dep first rest with
                       | None => []
                       | Some waypoints => waypoints
                       end).
  { subst wps; unfold extract_waypoints_from_route; now rewrite Hdec. }
  unfold waypoints_along in Hwps; fold start final in Hwps.
  split; [|split].
  - (* a distance raises inside the loop *)
    intros (p & q & Hin & Hnone).
    now rewrite Hwps, (sample_from_raises interval dep rest first _ p q Hin Hnone).
  - (* an empty result has a cause *)
    intros Hnil; rewrite Hwps in Hnil.
    destruct (sample_from' interval dep first rest (mkSampling [start] 0 0))
      as [s|] eqn:Hs.
    + destruct (sample_from_appends _ _ _ _ _ _ Hs) as (more & Hmore & _).
      cbn [emitted app] in Hmore.
      unfold needs_destination, destination_waypoint in Hnil.
      destruct (List.length (emitted s) =? 1)%nat.
      * destruct (add_minutes dep _) as [t|] eqn:Ht;
          [rewrite Hmore in Hnil; discriminate | right; eexists; exact Ht].
      * destruct (haversine_distance _ _ _ _) as [d|] eqn:Hd;
          [|left; do 4 eexists; exact Hd].
        destruct (negb (Qle_bool d 10));
          [|rewrite Hmore in Hnil; discriminate].
        destruct (add_minutes dep _) as [t|] eqn:Ht;
          [rewrite Hmore in Hnil; discriminate | right; eexists; exact Ht].
    + apply sample_from_none in Hs as [(p & q & _ & Hnone)|H]; [left | now right].
      do 4 eexists; exact Hnone.
  - (* a result that is not empty *)
    intros Hne; rewrite Hwps in Hne.
    destruct (sample_from' interval dep first rest (mkSampling [start] 0 0))
      as [s|] eqn:Hs; [|contradiction].
    exists s; split; [reflexivity|]; cbv zeta.
    set (sampled := emitted s) in *.
    set (latest := List.last sampled start).
    destruct (sample_from_appends _ _ _ _ _ _ Hs) as (more & Hmore & Hnames & Htimes).
    cbn [emitted app] in Hmore; fold sampled in Hmore.
    assert (Hsampled : Forall unnamed_destination sampled).
    { rewrite Hmore; constructor; [discriminate | exact Hnames]. }
    assert (Hneeds : forall b,
               needs_destination' start sampled final = Some b ->
               (b = true
                <-> (List.length sampled = 1%nat
                     \/ exists d,
                          haversine_distance (lat latest) (lon latest)
                            (fst final) (snd final) = Some d
                          /\ (10 < d)%Q))
               /\ (b = false ->
                   exists d,
                     haversine_distance (lat latest) (lon latest)
                       (fst final) (snd final) = Some d
                     /\ (d <= 10)%Q)).
    { intros b; unfold needs_destination; fold latest.
      destruct (Nat.eqb_spec (List.length sampled) 1) as [Hlen|Hlen].
      - intros [= <-]; split; [split; [now left | reflexivity] | discriminate].
      - destruct (haversine_distance _ _ _ _) as [d|]; [|discriminate].
        intros [= <-].
        destruct (Qle_bool d 10) eqn:Hle; cbn [negb].
        + apply Qle_bool_iff in Hle; split.
          * split; [discriminate|].
            intros [H|(d' & [= <-] & H)]; [contradiction|].
            now apply Qlt_not_le in H.
          * intros _; now exists d.
        + assert (Hlt : (10 < d)%Q).
          { apply Qnot_le_lt; intros H; apply Qle_bool_iff in H; congruence. }
          split; [|discriminate].
          split; [intros _; right; now exists d | reflexivity]. }
    destruct (needs_destination' start sampled final) as [[|]|] eqn:Hn;
      [| |contradiction].
    + (* "Destination" is appended *)
      destruct (Hneeds true eq_refl) as [Htrue _].
      unfold destination_waypoint in Hwps, Hne.
      destruct (add_minutes dep (calculate_eta (total_distance s))) as [t|] eqn:Ht;
        [|contradiction].
      set (dest := mkWaypoint (fst final) (snd final) (Some "Destination") _ _ _)
        in Hwps.
      assert (Hlast : List.last wps start = dest)
        by (rewrite Hwps; apply last_last).
      split; [|split; [|split]].
      * exists (more ++ [dest])%list; rewrite Hwps, Hmore; repeat split.
        apply Forall_app; split; [exact Htimes|].
        constructor; [|constructor].
        exists (calculate_eta (total_distance s)), t; repeat split; exact Ht.
      * rewrite Hlast; cbn [dest lat lon].
        destruct (haversine_same_point (fst final) (snd final)) as (d & Hd & Hzero).
        exists d; split; [exact Hd | rewrite Hzero; discriminate].
      * split; [intros _; now apply Htrue|].
        intros _; exists dest; split; [|reflexivity].
        rewrite Hwps; apply in_or_app; right; now left.
      * intros w Hin Hname; rewrite Hwps in Hin.
        apply in_app_or in Hin as [Hin|[<-|[]]].
        -- rewrite Forall_forall in Hsampled; now destruct (Hsampled w Hin).
        -- repeat split; now rewrite Hlast.
    + (* the last sampled waypoint ends the list *)
      destruct (Hneeds false eq_refl) as [Htrue Hfalse].
      split; [|split; [|split]].
      * exists more; rewrite Hwps, Hmore; repeat split; exact Htimes.
      * rewrite Hwps; fold latest; now apply Hfalse.
      * split; [|intros H; apply Htrue in H; discriminate].
        intros (w & Hin & Hname); rewrite Hwps in Hin.
        rewrite Forall_forall in Hsampled; now destruct (Hsampled w Hin).
      * intros w Hin Hname; rewrite Hwps in Hin.
        rewrite Forall_forall in Hsampled; now destruct (Hsampled w Hin).
Qed.

End Sampling_facts.

Lemma sample_distance_same_point (la lo : Q) :
  exists d, Sample.distance la lo la lo = Some d /\ (d == 0)%Q.
Proof.
  unfold Sample.distance, Sample.antipodal.
  assert (H : Qeq_bool (Qabs (lo - lo)) 180 = false).
  { destruct (Qeq_bool (Qabs (lo - lo)) 180) eqn:E; [|reflexivity].
    apply Qeq_bool_iff in E.
    assert (Hz : (lo - lo == 0)%Q) by ring.
    rewrite Hz in E; discriminate. }
  rewrite H, andb_false_r; eexists; split; [reflexivity|].
  setoid_replace (la - la)%Q with 0%Q by ring.
  setoid_replace (lo - lo)%Q with 0%Q by ring.
  reflexivity.
Qed.

Lemma waypoints_start_and_destination_witness :
  map name (extract_waypoints_from_route Sample.distance Sample.decode Z
              Sample.later PyStr.of_Z Sample.long_drive 50 0)
  = [Some "Start"; Some "Mile 203"; Some "Mile 759"]
  /\ map name (extract_waypoints_from_route Sample.distance Sample.decode Z
                 Sample.later PyStr.of_Z Sample.denver_boulder 50 0)
     = [Some "Start"; Some "Destination"]
  /\ (forall w,
        In w (extract_waypoints_from_route Sample.distance Sample.decode Z
                Sample.later PyStr.of_Z Sample.denver_boulder 50 0) ->
        name w = Some "Destination" ->
        lat w = 40.015%Q /\ lon w = (-105.2705)%Q)
  /\ extract_waypoints_from_route Sample.distance Sample.decode Z
       Sample.later PyStr.of_Z Sample.antipodes 50 0 = [].
Proof.
  split; [reflexivity | split; [reflexivity | split]].
  - intros w Hin Hname.
    pose proof (waypoints_start_and_destination Sample.distance Sample.decode Z
                  Sample.later PyStr.of_Z sample_distance_same_point
                  Sample.denver_boulder 50 0
                  (39.7392, -104.9903)%Q
                  [(39.8804, -105.136)%Q; (40.015, -105.2705)%Q]
                  eq_refl) as H.
    cbv zeta in H; destruct H as (_ & _ & H).
    destruct H as (s & _ & _ & _ & _ & H);
      [intros E; rewrite E in Hin; destruct Hin|].
    destruct (H w Hin Hname) as (_ & Hlat & Hlon); split; assumption.
  - pose proof (waypoints_start_and_destination Sample.distance Sample.decode Z
                  Sample.later PyStr.of_Z sample_distance_same_point
                  Sample.antipodes 50 0 (20, -1)%Q [(-20, 179)%Q] eq_refl) as H.
    cbv zeta in H; destruct H as (H & _); apply H.
    exists (20, -1)%Q, (-20, 179)%Q; split; [now left | reflexivity].
Defined.

(** C5 as stated fails: a polyline of a single point yields "Start" and
    "Destination" on the same coordinate, although the most recently
    emitted waypoint, "Start", is 0 miles from the final coordinate. *)
Lemma destination_within_ten_miles :
  let wps := extract_waypoints_from_route Sample.distance Sample.decode Z
               Sample.later PyStr.of_Z Sample.single_point 50 0 in
  Sample.decode Sample.single_point = Some [(38.5, -120.2)%Q]
  /\ map (fun w => (name w, lat w, lon w)) wps
     = [(Some "Start", 38.5%Q, (-120.2)%Q);
        (Some "Destination", 38.5%Q, (-120.2)%Q)]
  /\ exists d, Sample.distance 38.5 (-120.2) 38.5 (-120.2) = Some d
               /\ ~ (10 < d)%Q.
Proof.
  repeat split.
  eexists; split; [reflexivity|].
  intros H; vm_compute in H; discriminate.
Qed.

(** The same drive leaves no waypoint when it would arrive after the last
    minute of the clock: the addition of the travel time raises, and the
    request ends with status 500. *)
Example late_departure_no_waypoints :
  extract_waypoints_from_route Sample.distance Sample.decode Z
    Sample.later PyStr.of_Z Sample.denver_boulder 50 (Sample.last_minute - 30)
  = []
  /\ Sample.route_weather
       (mkRouteRequest "Denver, CO" "Boulder, CO" (Some "9999-12-31T23:30:00")
          None None None)
     = HTTPException 500 "Could not extract waypoints from route".
Proof. split; reflexivity. Qed.

(** ** The request pipeline (claims C6, C9) *)

Section Pipeline_facts.

Variable haversine_distance : Q -> Q -> Q -> Q -> option Q.
Variable polyline_decode : string -> option (list (Q * Q)).
Variable datetime : Type.
Variable add_minutes : datetime -> Z -> option datetime.
Variable isoformat : datetime -> string.
Variable parse_departure : option string -> datetime.
Variable geocode_location : string -> option Coords.
Variable directions_api : list Coords -> option DirectionsReply.
Variable get_noaa_weather : Q -> Q -> option WeatherData.
Variable get_noaa_alerts : Q -> Q -> list WeatherAlert.
Variable reverse_geocode : Q -> Q -> option string.

Local Notation "'route_weather'" :=
  (get_route_weather haversine_distance polyline_decode datetime add_minutes
     isoformat parse_departure geocode_location directions_api
     get_noaa_weather get_noaa_alerts reverse_geocode).
Local Notation "'plan'" :=
  (plan_route haversine_distance polyline_decode datetime add_minutes
     isoformat geocode_location directions_api).
Local Notation "'extract'" :=
  (extract_waypoints_from_route haversine_distance polyline_decode datetime
     add_minutes isoformat).
Local Notation "'mapbox_route'" := (get_mapbox_route directions_api).

Local Notation "'resolved_stops''" := (resolved_stops geocode_location).

Lemma geocode_stops_resolved (request : RouteRequest) :
  geocode_stops geocode_location (stops request) = resolved_stops' request.
Proof.
  unfold geocode_stops, resolved_stops.
  destruct (stops request) as [l|]; [|reflexivity].
  enough (forall acc,
             fold_left
               (fun stop_coords stop =>
                  match geocode_location (location stop) with
                  | Some coords => (stop_coords ++ [coords])%list
                  | None => stop_coords
                  end) l acc
             = (acc ++ flat_map
                         (fun stop => match geocode_location (location stop) with
                                      | Some coords => [coords]
                                      | None => []
                                      end) l)%list) as H by apply (H []).
  induction l as [|stop l IH]; intros acc; cbn [fold_left flat_map].
  - now rewrite app_nil_r.
  - rewrite IH; destruct (geocode_location (location stop)).
    + now rewrite <- app_assoc.
    + reflexivity.
Qed.

(** The route is asked for through the origin, the stops that geocode,
    and the destination. *)
Lemma mapbox_route_request (o d : Coords) (via : list Coords) :
  mapbox_route o d (via_argument via)
  = match directions_api (o :: via ++ [d]) with
    | None => None
    | Some data =>
        if match reply_code data with
           | Some code => String.eqb code "NoRoute"
           | None => false
           end
        then None
        else match reply_routes data with
             | [] => None
             | route :: _ =>
                 match re_geometry route with
                 | None => None
                 | Some g =>
                     Some (mkRouteData g
                             (match re_duration route with Some x => x | None => 0 end / 60)
                             (match re_distance route with Some x => x | None => 0 end / 1609.34))
                 end
             end
    end.
Proof. now destruct via. Qed.

Lemma plan_route_cases (request : RouteRequest) (dep : datetime) (o d : Coords) :
  geocode_location (origin request) = Some o ->
  geocode_location (destination request) = Some d ->
  plan request dep
  = match mapbox_route o d (via_argument (resolved_stops' request)) with
    | None => HTTPException 400 (no_route_detail request)
    | Some route_data =>
        match extract (geometry route_data) 50 dep with
        | [] => HTTPException 500 "Could not extract waypoints from route"
        | wps => Return (route_data, wps)
        end
    end.
Proof.
  intros Ho Hd; unfold plan_route.
  rewrite Ho, Hd, geocode_stops_resolved; cbn [require bind].
  fold (via_argument (resolved_stops' request)).
  destruct (mapbox_route o d _) as [r|]; cbn [require bind]; [|reflexivity].
  now destruct (extract _ _ _).
Qed.

Lemma route_weather_returns (request : RouteRequest) (planned : RouteData * list Waypoint) :
  plan request (parse_departure (departure_time request)) = Return planned ->
  exists resp,
    route_weather request = Return resp
    /\ total_distance_miles resp = round1 (distance (fst planned) / 1609.34).
Proof.
  intros H; unfold get_route_weather; rewrite H; cbn [bind].
  destruct planned as [route_data wps].
  destruct (analyze_route_conditions _) as [[[summary worst] reroute] reason].
  eexists; split; reflexivity.
Qed.

(** The two geocoding failures, for comparison: status 400 with a
    message that names the place. *)
Lemma route_weather_geocoding_failures (request : RouteRequest) :
  (geocode_location (origin request) = None ->
   route_weather request
   = HTTPException 400 ("Could not geocode origin: " ++ origin request))
  /\ (forall o,
        geocode_location (origin request) = Some o ->
        geocode_location (destination request) = None ->
        route_weather request
        = HTTPException 400
            ("Could not geocode destination: " ++ destination request)).
Proof.
  split; [intros Ho | intros o Ho Hd];
    unfold get_route_weather, plan_route; rewrite Ho; [|rewrite Hd]; reflexivity.
Qed.

(** C6: once origin and destination geocode, the route is requested
    through the stops that geocode and no others, and the stops never
    decide the outcome: the request fails with status 400 and the
    no-route message when the routing provider gives no route (as it
    does on a "NoRoute" reply), with status 500 when the route yields no
    waypoint, and returns a response otherwise.  The no-route message
    differs from both geocoding messages. *)
Theorem route_weather_failures :
  forall (request : RouteRequest) (o d : Coords),
    geocode_location (origin request) = Some o ->
    geocode_location (destination request) = Some d ->
    let dep := parse_departure (departure_time request) in
    let via := resolved_stops' request in
    match mapbox_route o d (via_argument via) with
    | None => route_weather request = HTTPException 400 (no_route_detail request)
    | Some route_data =>
        match extract (geometry route_data) 50 dep with
        | [] => route_weather request
                = HTTPException 500 "Could not extract waypoints from route"
        | _ :: _ => exists resp, route_weather request = Return resp
        end
    end
    /\ (forall reply,
          directions_api (o :: via ++ [d]) = Some reply ->
          reply_code reply = Some "NoRoute" ->
          mapbox_route o d (via_argument via) = None)
    /\ (forall place,
          no_route_detail request <> "Could not geocode origin: " ++ place
          /\ no_route_detail request <> "Could not geocode destination: " ++ place).
Proof.
  intros request o d Ho Hd dep via.
  pose proof (plan_route_cases request dep o d Ho Hd) as Hplan.
  fold via in Hplan.
  split; [|split; [|intros place; split; discriminate]].
  - destruct (mapbox_route o d (via_argument via)) as [route_data|].
    + destruct (extract (geometry route_data) 50 dep) as [|wp wps] eqn:Hwps.
      * unfold get_route_weather; fold dep; now rewrite Hplan.
      * destruct (route_weather_returns request _ Hplan) as (resp & Hresp & _).
        now exists resp.
    + unfold get_route_weather; fold dep; now rewrite Hplan.
  - intros reply Hreply Hcode.
    now rewrite mapbox_route_request, Hreply, Hcode.
Qed.

(** C9: the distance of a response is the distance the routing provider
    reported for its first route, divided by 1609.34 twice (once in
    [get_mapbox_route], once in [get_route_weather]), then rounded to
    one decimal. *)
Theorem total_distance_divided_twice :
  forall (request : RouteRequest) (resp : RouteWeatherResponse),
    route_weather request = Return resp ->
    exists o d reply route more,
      geocode_location (origin request) = Some o
      /\ geocode_location (destination request) = Some d
      /\ directions_api (o :: resolved_stops' request ++ [d]) = Some reply
      /\ reply_routes reply = route :: more
      /\ total_distance_miles resp
         = round1 ((match re_distance route with Some x => x | None => 0 end
                    / 1609.34) / 1609.34).
Proof.
  intros request resp Hresp.
  destruct (geocode_location (origin request)) as [o|] eqn:Ho;
    [|unfold get_route_weather, plan_route in Hresp; now rewrite Ho in Hresp].
  destruct (geocode_location (destination request)) as [d|] eqn:Hd;
    [|unfold get_route_weather, plan_route in Hresp; now rewrite Ho, Hd in Hresp].
  pose proof (plan_route_cases request (parse_departure (departure_time request))
                o d Ho Hd) as Hplan.
  rewrite mapbox_route_request in Hplan.
  destruct (directions_api (o :: resolved_stops' request ++ [d])) as [reply|] eqn:Hreply;
    [|unfold get_route_weather in Hresp; now rewrite Hplan in Hresp].
  destruct (match reply_code reply with
            | Some code => String.eqb code "NoRoute"
            | None => false
            end);
    [unfold get_route_weather in Hresp; now rewrite Hplan in Hresp|].
  destruct (reply_routes reply) as [|route more] eqn:Hroutes;
    [unfold get_route_weather in Hresp; now rewrite Hplan in Hresp|].
  destruct (re_geometry route) as [g|];
    [|unfold get_route_weather in Hresp; now rewrite Hplan in Hresp].
  destruct (extract _ _ _) as [|wp wps];
    [unfold get_route_weather in Hresp; now rewrite Hplan in Hresp|].
  destruct (route_weather_returns request _ Hplan) as (resp' & Hresp' & Htotal).
  rewrite Hresp in Hresp'; injection Hresp' as <-.
  exists o, d, reply, route, more; repeat split; assumption.
Qed.

End Pipeline_facts.

Lemma route_weather_failures_witness :
  let detour := mkRouteRequest "Denver, CO" "Boulder, CO" None
                  (Some [mkStopPoint "Atlantis" "stop"]) None None in
  let stranded := mkRouteRequest "Denver, CO" "Nome, AK" None None None None in
  (exists resp, Sample.route_weather detour = Return resp)
  /\ Sample.route_weather stranded = HTTPException 400 (no_route_detail stranded).
Proof.
  split.
  - pose proof (route_weather_failures Sample.distance Sample.decode Z
                  Sample.later PyStr.of_Z Sample.clock Sample.geocode
                  Sample.directions Sample.forecast Sample.no_alerts
                  Sample.place_name
                  (mkRouteRequest "Denver, CO" "Boulder, CO" None
                     (Some [mkStopPoint "Atlantis" "stop"]) None None)
                  Sample.denver Sample.boulder eq_refl eq_refl) as H.
    cbv zeta in H; destruct H as [H _]; exact H.
  - pose proof (route_weather_failures Sample.distance Sample.decode Z
                  Sample.later PyStr.of_Z Sample.clock Sample.geocode
                  Sample.directions Sample.forecast Sample.no_alerts
                  Sample.place_name
                  (mkRouteRequest "Denver, CO" "Nome, AK" None None None None)
                  Sample.denver Sample.nome eq_refl eq_refl) as H.
    cbv zeta in H; destruct H as [H _]; exact H.
Defined.

Lemma total_distance_divided_twice_witness :
  let request := mkRouteRequest "Denver, CO" "Boulder, CO" None None None None in
  exists resp,
    Sample.route_weather request = Return resp
    /\ total_distance_miles resp = round1 ((45000 / 1609.34) / 1609.34)
    /\ (total_distance_miles resp == 0)%Q
    /\ (round1 (45000 / 1609.34) == 28)%Q.
Proof.
  intros request.
  destruct (Sample.route_weather request) as [resp|] eqn:E;
    [|vm_compute in E; discriminate].
  exists resp; split; [reflexivity|].
  destruct (total_distance_divided_twice Sample.distance Sample.decode Z
              Sample.later PyStr.of_Z Sample.clock Sample.geocode
              Sample.directions Sample.forecast Sample.no_alerts
              Sample.place_name request resp E)
    as (o & d & reply & route & more & Ho & Hd & Hreply & Hroutes & Htotal).
  injection Ho as <-; injection Hd as <-.
  injection Hreply as <-; injection Hroutes as <- <-.
  rewrite Htotal; repeat split.
Defined.
